(** * Bill extraction pipeline (main.py): a shallow embedding

    The development follows main.py function by function:
    [pdf_or_image_to_pages], [find_json], [call_gemini_page],
    [similarity], [dedupe_items] and [extract_from_document].

    Python values are modelled as they reach the code: a [str] is the
    list of its code points, a [float] is a binary64 number (the
    primitive floats of the kernel), an [int] is a [Z], the objects
    returned by [json.loads] are the inductive [pyval].

    Calls into libraries the module imports (Pillow, pdf2image, the
    GenAI client, [json], [str.lower], [float(str)]) are fields of the
    record [Library]; the calls that touch the outside world thread a
    state of type [world] and may raise.  [difflib.SequenceMatcher] is
    small enough to be embedded as it is (module [Difflib]). *)

From Stdlib Require Import ZArith String Ascii.
From Stdlib Require Import PrimFloat FloatOps SpecFloat.
From stdpp Require Import base option list list_numbers.

Set Warnings "-register-all,-inexact-float".

Local Open Scope Z_scope.
Local Open Scope list_scope.

(* ================================================================== *)
(** * Python strings *)

(** A [str]: the sequence of its Unicode code points. *)
Definition pystr := list N.

(** Literals are written as Rocq strings and turned into code points. *)
Fixpoint py (s : string) : pystr :=
  match s with
  | EmptyString => []
  | String c s' => N_of_ascii c :: py s'
  end.

Arguments py : simpl never.

Definition len {A} (l : list A) : Z := Z.of_nat (length l).

Definition pystr_eqb (s t : pystr) : bool := bool_decide (s = t).

(** [startswith_b sub text]: [text.startswith(sub)]. *)
Fixpoint startswith_b (sub text : pystr) : bool :=
  match sub, text with
  | [], _ => true
  | _ :: _, [] => false
  | c :: sub', d :: text' => N.eqb c d && startswith_b sub' text'
  end.

(** [text.endswith(sub)]. *)
Definition endswith (text sub : pystr) : bool :=
  startswith_b (reverse sub) (reverse text).

(** [text.find(sub)] scanning from index [i]: the lowest index at which
    [sub] occurs, or [-1]. *)
Fixpoint find_from (sub text : pystr) (i : Z) : Z :=
  if startswith_b sub text then i
  else match text with
       | [] => -1
       | _ :: text' => find_from sub text' (i + 1)
       end.

Definition find (text sub : pystr) : Z := find_from sub text 0.

(** [text.rfind(sub)]: the highest index at which [sub] occurs, or [-1].
    [last] is the highest index seen so far. *)
Fixpoint rfind_from (sub text : pystr) (i last : Z) : Z :=
  let last' := if startswith_b sub text then i else last in
  match text with
  | [] => last'
  | _ :: text' => rfind_from sub text' (i + 1) last'
  end.

Definition rfind (text sub : pystr) : Z := rfind_from sub text 0 (-1).

(** Slice bounds as Python clamps them: a negative bound counts from the
    end, and both ends are brought into [0 .. len]. *)
Definition clamp_index (n i : Z) : Z :=
  if i <? 0 then Z.max 0 (i + n) else Z.min i n.

(** [text[start:stop]]. *)
Definition slice {A} (text : list A) (start stop : Z) : list A :=
  let n := len text in
  let lo := clamp_index n start in
  let hi := clamp_index n stop in
  drop (Z.to_nat lo) (take (Z.to_nat hi) text).

(* ================================================================== *)
(** * Floats *)

(** [float(n)] for an [int]: rounding to nearest, ties to even; [None]
    stands for the [OverflowError] of an [int] too large for a float. *)
Definition float_of_int (z : Z) : option float :=
  let f := SF2Prim (binary_normalize prec emax z 0 false) in
  if PrimFloat.is_infinity f then None else Some f.

(** Lengths and match counts are far below [2^53]: the conversion that
    [2.0 * matches / length] performs is exact. *)
Definition float_of_count (z : Z) : float :=
  SF2Prim (binary_normalize prec emax z 0 false).

(* ================================================================== *)
(** * Values and exceptions *)

(** What [json.loads] returns.  A [dict] keeps its items in insertion
    order; a key is looked up at its first entry. *)
Inductive pyval :=
| PNone
| PBool (b : bool)
| PInt (z : Z)
| PFloat (f : float)
| PStr (s : pystr)
| PList (l : list pyval)
| PDict (d : list (pystr * pyval)).

(** An exception raised by a builtin or by a library: its class and
    [str(e)]. *)
Record pyexc := PyExc { exc_class : pystr; exc_str : pystr }.

(** What reaches the caller of this module when a call fails: either an
    [HTTPException] that main.py raises itself, or an exception it does
    not catch. *)
Inductive failure :=
| HTTPException (status_code : Z) (detail : pystr)
| Uncaught (e : pyexc).

(** The outcome of a call that may raise. *)
Inductive outcome (E A : Type) :=
| Returns (a : A)
| Raises (e : E).
Arguments Returns {E A} a.
Arguments Raises {E A} e.

Definition type_name (v : pyval) : pystr :=
  match v with
  | PNone => py "NoneType"
  | PBool _ => py "bool"
  | PInt _ => py "int"
  | PFloat _ => py "float"
  | PStr _ => py "str"
  | PList _ => py "list"
  | PDict _ => py "dict"
  end.

Definition AttributeError (v : pyval) (attr : pystr) : pyexc :=
  PyExc (py "AttributeError")
        (py "'" ++ type_name v ++ py "' object has no attribute '" ++ attr ++ py "'").

Definition TypeError (msg : pystr) : pyexc := PyExc (py "TypeError") msg.

Definition KeyError (k : pystr) : pyexc :=
  PyExc (py "KeyError") (py "'" ++ k ++ py "'").

Definition OverflowError : pyexc :=
  PyExc (py "OverflowError") (py "int too large to convert to float").

(** Lookup in a [dict]. *)
Fixpoint dict_lookup (k : pystr) (d : list (pystr * pyval)) : option pyval :=
  match d with
  | [] => None
  | (k', v) :: d' => if pystr_eqb k k' then Some v else dict_lookup k d'
  end.

(** [v.get(k, dflt)]. *)
Definition py_get (v : pyval) (k : pystr) (dflt : pyval) : outcome pyexc pyval :=
  match v with
  | PDict d => Returns (default dflt (dict_lookup k d))
  | _ => Raises (AttributeError v (py "get"))
  end.

(* ================================================================== *)
(** * difflib.SequenceMatcher

    [SequenceMatcher(None, a, b).ratio()] as CPython's difflib computes
    it: no junk predicate, [autojunk] left at its default. *)

Module Difflib.

(** A block [a[i:i+k] == b[j:j+k]]. *)
Record Match := mkMatch { m_a : Z; m_b : Z; m_size : Z }.

(** [__chain_b]: with [autojunk] and [len(b) >= 200], an element that
    occurs more than [len(b) // 100 + 1] times is popular and is left
    out of [b2j]. *)
Definition occurrences (c : N) (b : pystr) : Z :=
  len (filter (λ d, d = c) b).

Definition popular (b : pystr) (c : N) : bool :=
  (200 <=? len b) && (len b / 100 + 1 <? occurrences c b).

(** The indices of [c] in [b], in increasing order, [j0] being the
    index of the head of [b]. *)
Fixpoint indices_from (c : N) (b : pystr) (j0 : Z) : list Z :=
  match b with
  | [] => []
  | d :: b' => if N.eqb d c then j0 :: indices_from c b' (j0 + 1)
               else indices_from c b' (j0 + 1)
  end.

(** [b2j.get(c, [])]. *)
Definition b2j_get (b : pystr) (c : N) : list Z :=
  if popular b c then [] else indices_from c b 0.

(** [j2len]: a dict from an index of [b] to the length of the longest
    match ending there; [j2len.get(j, 0)]. *)
Fixpoint j2len_get (j2len : list (Z * Z)) (j : Z) : Z :=
  match j2len with
  | [] => 0
  | (j', k) :: rest => if j' =? j then k else j2len_get rest j
  end.

(** The loop [for j in b2j.get(a[i], nothing)] of [find_longest_match]:
    [continue] below [blo], [break] from [bhi] on. *)
Fixpoint scan_row (js : list Z) (i blo bhi : Z) (j2len newj2len : list (Z * Z))
    (best : Match) : list (Z * Z) * Match :=
  match js with
  | [] => (newj2len, best)
  | j :: js' =>
      if j <? blo then scan_row js' i blo bhi j2len newj2len best
      else if bhi <=? j then (newj2len, best)
      else
        let k := j2len_get j2len (j - 1) + 1 in
        let best' := if m_size best <? k
                     then mkMatch (i - k + 1) (j - k + 1) k else best in
        scan_row js' i blo bhi j2len ((j, k) :: newj2len) best'
  end.

(** [a[i]]; the loops below only read inside the sequence. *)
Definition at_index (s : pystr) (i : Z) : option N :=
  if i <? 0 then None else s !! Z.to_nat i.

(** The loop [for i in range(alo, ahi)]. *)
Fixpoint scan_rows (a b : pystr) (rows : list Z) (blo bhi : Z)
    (j2len : list (Z * Z)) (best : Match) : Match :=
  match rows with
  | [] => best
  | i :: rows' =>
      let js := match at_index a i with
                | Some c => b2j_get b c
                | None => []
                end in
      let '(newj2len, best') := scan_row js i blo bhi j2len [] best in
      scan_rows a b rows' blo bhi newj2len best'
  end.

(** The first [while]: the block grows to the left as long as the
    elements before it agree.  The loop runs at most [besti - alo]
    times, which is the fuel it is given. *)
Fixpoint extend_left (fuel : nat) (a b : pystr) (alo blo : Z) (best : Match) : Match :=
  match fuel with
  | O => best
  | S fuel' =>
      let '(mkMatch besti bestj bestsize) := best in
      if (alo <? besti) && (blo <? bestj)
         && bool_decide (at_index a (besti - 1) = at_index b (bestj - 1))
      then extend_left fuel' a b alo blo (mkMatch (besti - 1) (bestj - 1) (bestsize + 1))
      else best
  end.

(** The second [while]: the block grows to the right; at most
    [ahi - (besti + bestsize)] times. *)
Fixpoint extend_right (fuel : nat) (a b : pystr) (ahi bhi : Z) (best : Match) : Match :=
  match fuel with
  | O => best
  | S fuel' =>
      let '(mkMatch besti bestj bestsize) := best in
      if (besti + bestsize <? ahi) && (bestj + bestsize <? bhi)
         && bool_decide (at_index a (besti + bestsize) = at_index b (bestj + bestsize))
      then extend_right fuel' a b ahi bhi (mkMatch besti bestj (bestsize + 1))
      else best
  end.

(** [find_longest_match(alo, ahi, blo, bhi)].  [bjunk] is empty (there is
    no junk predicate), so the two loops over junk elements never run. *)
Definition find_longest_match (a b : pystr) (alo ahi blo bhi : Z) : Match :=
  let best := scan_rows a b (seqZ alo (ahi - alo)) blo bhi [] (mkMatch alo blo 0) in
  let best := extend_left (Z.to_nat (m_a best - alo)) a b alo blo best in
  extend_right (Z.to_nat (ahi - (m_a best + m_size best))) a b ahi bhi best.

(** The [while queue] loop of [get_matching_blocks]; [queue.pop()] takes
    the region appended last, kept here at the head.  [None]: the fuel
    ran out before the queue was empty. *)
Fixpoint matching_loop (fuel : nat) (a b : pystr)
    (queue : list (Z * Z * Z * Z)) (blocks : list Match) : option (list Match) :=
  match queue with
  | [] => Some blocks
  | (alo, ahi, blo, bhi) :: queue' =>
      match fuel with
      | O => None
      | S fuel' =>
          let x := find_longest_match a b alo ahi blo bhi in
          let '(mkMatch i j k) := x in
          if k =? 0 then matching_loop fuel' a b queue' blocks
          else
            let q1 := if (alo <? i) && (blo <? j)
                      then (alo, i, blo, j) :: queue' else queue' in
            let q2 := if (i + k <? ahi) && (j + k <? bhi)
                      then (i + k, ahi, j + k, bhi) :: q1 else q1 in
            matching_loop fuel' a b q2 (blocks ++ [x])
      end
  end.

(** Every turn of the loop either drops a region or splits it around a
    block of at least one element of [a]: [2 * len(a) + 1] turns are
    enough (lemma [matching_loop_total]). *)
Definition matching_fuel (a : pystr) : nat := S (2 * length a).

(** The blocks found by [get_matching_blocks], before it sorts them,
    merges adjacent ones and appends the sentinel [(la, lb, 0)]: none of
    the three changes the sum of the sizes, which is all [ratio] reads. *)
Definition matching_blocks (a b : pystr) : list Match :=
  default [] (matching_loop (matching_fuel a) a b [(0, len a, 0, len b)] []).

Definition matches (a b : pystr) : Z :=
  foldr (λ m acc, m_size m + acc) 0 (matching_blocks a b).

(** [_calculate_ratio(matches, length)]. *)
Definition calculate_ratio (matches length : Z) : float :=
  if length =? 0 then 1%float
  else PrimFloat.div (PrimFloat.mul 2%float (float_of_count matches))
                     (float_of_count length).

(** [SequenceMatcher(None, a, b).ratio()]. *)
Definition ratio (a b : pystr) : float :=
  calculate_ratio (matches a b) (len a + len b).

(** ** Invariants of the two loops *)

(** A block inside the region [a[alo:ahi]], [b[blo:bhi]]. *)
Definition inside (alo ahi blo bhi : Z) (m : Match) : Prop :=
  alo ≤ m_a m ∧ blo ≤ m_b m ∧ 0 ≤ m_size m ∧
  m_a m + m_size m ≤ ahi ∧ m_b m + m_size m ≤ bhi.

(** The lengths kept in [j2len] when row [i] starts: matches that end
    on the row before. *)
Definition lengths_below (alo blo i : Z) (j2len : list (Z * Z)) : Prop :=
  ∀ j k, (j, k) ∈ j2len → 1 ≤ k ∧ k ≤ i - alo ∧ k ≤ j - blo + 1.

(** What is left to do for a queue of regions: each region costs one
    turn and two more for each element of [a] in it. *)
Definition work (queue : list (Z * Z * Z * Z)) : Z :=
  foldr (λ r acc, let '(alo, ahi, _, _) := r in 2 * (ahi - alo) + 1 + acc) 0 queue.

Definition well_formed (r : Z * Z * Z * Z) : Prop :=
  let '(alo, ahi, blo, bhi) := r in alo ≤ ahi ∧ blo ≤ bhi.

End Difflib.

(* ================================================================== *)
(** * The libraries main.py calls *)

Definition bytes := list Byte.byte.

(** An attribute of [res.usage_metadata] as [getattr] finds it: the
    object may not have it, or it holds an [int], or it holds [None]
    (the value of a counter the service did not report). *)
Inductive attribute :=
| NoAttribute
| Attribute (value : option Z).

(** [res.usage_metadata] *)
Record usage_metadata := {
  total_token_count : attribute;
  input_token_count : attribute;
  output_token_count : attribute
}.

(** What [client.models.generate_content] returns.  [res.text] is
    [None] for a reply without text parts; [usage] is [None] when the
    reply has no [usage_metadata] (or it is [None]). *)
Record response := {
  text : option pystr;
  usage : option usage_metadata
}.

(** The imported functions.  [world] is whatever state the outside
    world has (the network, the model service, the PDF tool chain): a
    call receives the world and returns it changed, so two calls with
    the same arguments need not agree. *)
Record Library := {
  world : Type;
  image : Type;
  (** [img.mode] *)
  image_mode : image → pystr;
  (** [str.lower] *)
  lower : pystr → pystr;
  (** [float(s)] for a [str] *)
  float_of_str : pystr → outcome pyexc float;
  (** [json.loads] *)
  json_loads : pystr → outcome pyexc pyval;
  (** [pdf2image.convert_from_bytes] *)
  convert_from_bytes : bytes → world → outcome pyexc (list image) * world;
  (** [Image.open(io.BytesIO(b))] *)
  image_open : bytes → world → outcome pyexc image * world;
  (** [img.convert(mode)] *)
  image_convert : image → pystr → world → outcome pyexc image * world;
  (** [client.models.generate_content(model=GENAI_MODEL, contents=[prompt, img])],
      [prompt] being the fixed prompt of [call_gemini_page] *)
  generate_content : image → world → outcome pyexc response * world;
  (** [requests.get(url, timeout=20)] followed by [raise_for_status()] and [.content] *)
  requests_get : pystr → world → outcome pyexc bytes * world
}.

(** A computation over the world that returns or raises. *)
Definition M (W E A : Type) : Type := W → outcome E A * W.

Definition ret {W E A} (a : A) : M W E A := λ w, (Returns a, w).

Definition raise {W E A} (e : E) : M W E A := λ w, (Raises e, w).

Definition bind {W E A B} (m : M W E A) (k : A → M W E B) : M W E B :=
  λ w, match m w with
       | (Returns a, w') => k a w'
       | (Raises e, w') => (Raises e, w')
       end.

(** [try: m  except: h] *)
Definition try_except {W E E' A} (m : M W E A) (h : E → M W E' A) : M W E' A :=
  λ w, match m w with
       | (Returns a, w') => (Returns a, w')
       | (Raises e, w') => h e w'
       end.

(** A pure call that may raise, run inside a computation. *)
Definition lift {W E A} (o : outcome E A) : M W E A := λ w, (o, w).

(** An exception nobody catches, as the caller sees it. *)
Definition uncaught {W A} (m : M W pyexc A) : M W failure A :=
  try_except m (λ e, raise (Uncaught e)).

Declare Scope py_scope.
Delimit Scope py_scope with py_do.
Notation "x <- m ;; k" := (bind m (λ x, k))
  (at level 100, m at next level, right associativity, only parsing) : py_scope.
Local Open Scope py_scope.

(** The same for pure code: [outcome] alone. *)
Definition obind {E A B} (o : outcome E A) (k : A → outcome E B) : outcome E B :=
  match o with
  | Returns a => k a
  | Raises e => Raises e
  end.

(** A builtin raised and nothing catches it. *)
Definition escape {A} (o : outcome pyexc A) : outcome failure A :=
  match o with
  | Returns a => Returns a
  | Raises e => Raises (Uncaught e)
  end.

Ltac run := unfold bind, lift, ret, raise, uncaught, try_except, escape in *.

(* ================================================================== *)
(** * main.py *)

Section Source.
Context (L : Library).

Let W := world L.

(** ** download_document *)

Definition download_document (url : pystr) : M W failure bytes :=
  try_except (requests_get L url)
    (λ e, raise (HTTPException 400 (py "Failed to download document: " ++ exc_str e))).

(** ** pdf_or_image_to_pages *)

(** [img = Image.open(io.BytesIO(file_bytes)).convert("RGB"); return [img]] *)
Definition open_as_rgb (file_bytes : bytes) : M W pyexc (list (image L)) :=
  opened <- image_open L file_bytes ;;
  img <- image_convert L opened (py "RGB") ;;
  ret [img].

Definition pdf_or_image_to_pages (file_bytes : bytes) (url : pystr)
  : M W pyexc (list (image L)) :=
  let url := lower L url in
  try_except
    (if endswith url (py ".pdf")
     then convert_from_bytes L file_bytes
     else open_as_rgb file_bytes)
    (λ _,
       try_except (convert_from_bytes L file_bytes)
         (λ _, open_as_rgb file_bytes)).

(** ** find_json *)

Definition find_json (text : pystr) : outcome failure pyval :=
  let start := find text (py "{") in
  let end_ := rfind text (py "}") in
  if (start =? -1) || (end_ =? -1)
  then Raises (HTTPException 500 (py "Gemini output contains no JSON"))
  else match json_loads L (slice text start (end_ + 1)) with
       | Returns v => Returns v
       | Raises e =>
           Raises (HTTPException 500 (py "JSON parsing failed: " ++ exc_str e))
       end.

(** ** call_gemini_page *)

(** [getattr(usage, name, 0) if usage else 0]: an [int], or [None]
    when the attribute is there and holds [None]. *)
Definition counter (u : option usage_metadata)
    (field : usage_metadata → attribute) : option Z :=
  match u with
  | Some m => match field m with
              | Attribute value => value
              | NoAttribute => Some 0
              end
  | None => Some 0
  end.

(** [find_json(res.text)]: when [res.text] is [None], [text.find]
    raises, and nothing catches it. *)
Definition find_json_in (text : option pystr) : outcome failure pyval :=
  match text with
  | Some s => find_json s
  | None => Raises (Uncaught (AttributeError PNone (py "find")))
  end.

Definition call_gemini_page (img : image L)
  : M W failure (pyval * option Z * option Z * option Z) :=
  res <- uncaught (generate_content L img) ;;
  data <- lift (find_json_in (text res)) ;;
  let u := usage res in
  let total_tokens := counter u total_token_count in
  let input_tokens := counter u input_token_count in
  let output_tokens := counter u output_token_count in
  ret (data, total_tokens, input_tokens, output_tokens).

(** ** similarity *)

(** [v.lower()]: only a [str] has the method. *)
Definition py_lower (v : pyval) : outcome pyexc pystr :=
  match v with
  | PStr s => Returns (lower L s)
  | _ => Raises (AttributeError v (py "lower"))
  end.

Definition similarity (a b : pyval) : outcome pyexc float :=
  obind (py_lower a) (λ la,
  obind (py_lower b) (λ lb,
  Returns (Difflib.ratio la lb))).

(** ** dedupe_items *)

(** The dict [itm] that [extract_from_document] builds, which is what
    [dedupe_items] receives.  [item_name] is whatever the model sent. *)
Record item := {
  item_name : pyval;
  item_amount : float;
  item_rate : float;
  item_quantity : float
}.

(** The inner loop [for u in unique], which stops at the first
    duplicate: the value of [duplicate] when the loop ends. *)
Fixpoint scan_unique (threshold tol : float) (it : item) (unique : list item)
  : outcome pyexc bool :=
  match unique with
  | [] => Returns false
  | u :: rest =>
      obind (similarity (item_name it) (item_name u)) (λ s,
        if PrimFloat.leb threshold s
           && PrimFloat.leb (PrimFloat.abs (PrimFloat.sub (item_amount it) (item_amount u))) tol
        then Returns true
        else scan_unique threshold tol it rest)
  end.

(** The outer loop [for it in items]. *)
Fixpoint dedupe_loop (threshold tol : float) (items unique : list item)
  : outcome pyexc (list item) :=
  match items with
  | [] => Returns unique
  | it :: rest =>
      obind (scan_unique threshold tol it unique) (λ duplicate,
        if negb duplicate
        then dedupe_loop threshold tol rest (unique ++ [it])
        else dedupe_loop threshold tol rest unique)
  end.

Definition dedupe_items (items : list item) (threshold tol : float)
  : outcome pyexc (list item) :=
  dedupe_loop threshold tol items [].

(** The defaults [threshold=0.92, tol=1.0]. *)
Definition default_threshold : float := 0.92%float.
Definition default_tol : float := 1%float.

Definition dedupe_items_default (items : list item) : outcome pyexc (list item) :=
  dedupe_items items default_threshold default_tol.

(** ** extract_from_document *)

(** [float(v)] *)
Definition py_float (v : pyval) : outcome pyexc float :=
  match v with
  | PBool b => Returns (if b then 1%float else 0%float)
  | PInt z => match float_of_int z with
              | Some f => Returns f
              | None => Raises OverflowError
              end
  | PFloat f => Returns f
  | PStr s => float_of_str L s
  | PNone | PList _ | PDict _ =>
      Raises (TypeError (py "float() argument must be a string or a real number, not '"
                         ++ type_name v ++ py "'"))
  end.

(** [v[k]] for a [str] key [k]: only a [dict] can be indexed by it. *)
Definition py_getitem (v : pyval) (k : pystr) : outcome pyexc pyval :=
  match v with
  | PDict d => match dict_lookup k d with
               | Some x => Returns x
               | None => Raises (KeyError k)
               end
  | PStr _ => Raises (TypeError (py "string indices must be integers, not 'str'"))
  | PList _ => Raises (TypeError (py "list indices must be integers or slices, not str"))
  | _ => Raises (TypeError (py "'" ++ type_name v ++ py "' object is not subscriptable"))
  end.

(** What [for item in v] goes through: the elements of a list, the
    characters of a [str], the keys of a [dict]. *)
Definition py_iter (v : pyval) : outcome pyexc (list pyval) :=
  match v with
  | PList l => Returns l
  | PStr s => Returns (map (λ c, PStr [c]) s)
  | PDict d => Returns (map (λ kv, PStr (fst kv)) d)
  | _ => Raises (TypeError (py "'" ++ type_name v ++ py "' object is not iterable"))
  end.

(** The dict display inside the [try]: the four entries are evaluated
    in the order they are written. *)
Definition make_item (raw : pyval) : outcome pyexc item :=
  obind (py_getitem raw (py "item_name")) (λ name,
  obind (obind (py_getitem raw (py "amount")) py_float) (λ amount,
  obind (obind (py_getitem raw (py "rate")) py_float) (λ rate,
  obind (obind (py_getitem raw (py "quantity")) py_float) (λ quantity,
  Returns {| item_name := name; item_amount := amount;
             item_rate := rate; item_quantity := quantity |})))).

(** The loop [for item in data.get("items", [])]: [all_items] and
    [page_items] receive the same [itm]; [except: continue] skips the
    item whose display raised. *)
Fixpoint items_loop (raws : list pyval) (all_items page_items : list item)
  : list item * list item :=
  match raws with
  | [] => (all_items, page_items)
  | raw :: rest =>
      match make_item raw with
      | Returns itm => items_loop rest (all_items ++ [itm]) (page_items ++ [itm])
      | Raises _ => items_loop rest all_items page_items
      end
  end.

(** One entry of [pagewise_output]. *)
Record page_line_items := {
  page_no : Z;
  page_type : pyval;
  bill_items : list item
}.

(** The variables the page loop updates. *)
Record loop_state := {
  all_items : list item;
  pagewise_output : list page_line_items;
  total_tokens : Z;
  input_tokens : Z;
  output_tokens : Z
}.

(** [n += v] for an [int] [n]: [None] cannot be added. *)
Definition add_counter (n : Z) (v : option Z) : outcome pyexc Z :=
  match v with
  | Some z => Returns (n + z)
  | None =>
      Raises (TypeError (py "unsupported operand type(s) for +=: 'int' and 'NoneType'"))
  end.

(** One turn of [for page_no, img in enumerate(pages, start=1)]. *)
Definition page_step (n : Z) (img : image L) (st : loop_state) : M W failure loop_state :=
  r <- call_gemini_page img ;;
  let '(data, t, i, o) := r in
  total <- lift (escape (add_counter (total_tokens st) t)) ;;
  input <- lift (escape (add_counter (input_tokens st) i)) ;;
  output <- lift (escape (add_counter (output_tokens st) o)) ;;
  raw_items <- lift (escape (py_get data (py "items") (PList []))) ;;
  raws <- lift (escape (py_iter raw_items)) ;;
  let '(all', page_items) := items_loop raws (all_items st) [] in
  ptype <- lift (escape (py_get data (py "page_type") (PStr (py "Bill Detail")))) ;;
  ret {| all_items := all';
         pagewise_output := pagewise_output st ++
           [{| page_no := n; page_type := ptype; bill_items := page_items |}];
         total_tokens := total;
         input_tokens := input;
         output_tokens := output |}.

Fixpoint pages_loop (n : Z) (pages : list (image L)) (st : loop_state)
  : M W failure loop_state :=
  match pages with
  | [] => ret st
  | img :: rest =>
      st' <- page_step n img st ;;
      pages_loop (n + 1) rest st'
  end.

(** The tuple [extract_from_document] returns. *)
Record extraction := {
  ex_pagewise_output : list page_line_items;
  ex_unique_items : list item;
  ex_total_item_count : Z;
  ex_total_tokens : Z;
  ex_input_tokens : Z;
  ex_output_tokens : Z
}.

Definition extract_from_document (file_bytes : bytes) (url : pystr)
  : M W failure extraction :=
  pages <- uncaught (pdf_or_image_to_pages file_bytes url) ;;
  st <- pages_loop 1 pages
          {| all_items := []; pagewise_output := [];
             total_tokens := 0; input_tokens := 0; output_tokens := 0 |} ;;
  unique_items <- lift (escape (dedupe_items_default (all_items st))) ;;
  let total_item_count := len unique_items in
  ret {| ex_pagewise_output := pagewise_output st;
         ex_unique_items := unique_items;
         ex_total_item_count := total_item_count;
         ex_total_tokens := total_tokens st;
         ex_input_tokens := input_tokens st;
         ex_output_tokens := output_tokens st |}.

End Source.


(* ================================================================== *)
(** * The specification's reading of the same functions

    Definitions in this part follow the words of the design document,
    not the code, and the theorems compare the two; the invariants the
    proofs carry through the loops ([Settled], [Exhausted]) and the
    chain of strategies the code runs ([fallback_chain]) are here too. *)

Section Specification.
Context (L : Library).

(** ** Deduplication (design, 4.4) *)

(** "similarity >= name_threshold AND amount difference <=
    amount_tolerance", the similarity being the ratio of the two names
    compared case-insensitively. *)
Definition duplicate_of (threshold tol : float) (it u : item) : Prop :=
  ∃ a b, item_name it = PStr a ∧ item_name u = PStr b ∧
    PrimFloat.leb threshold (Difflib.ratio (lower L a) (lower L b)) = true ∧
    PrimFloat.leb (PrimFloat.abs (PrimFloat.sub (item_amount it) (item_amount u))) tol = true.

(** "process items in input order; maintain a growing accepted set":
    [Greedy accepted items out] reads "from the accepted list
    [accepted], the remaining input [items] ends with [out] accepted". *)
Inductive Greedy (threshold tol : float) : list item → list item → list item → Prop :=
| Greedy_done accepted :
    Greedy threshold tol accepted [] accepted
| Greedy_discard accepted it rest out :
    (∃ u, u ∈ accepted ∧ duplicate_of threshold tol it u) →
    Greedy threshold tol accepted rest out →
    Greedy threshold tol accepted (it :: rest) out
| Greedy_accept accepted it rest out :
    ¬ (∃ u, u ∈ accepted ∧ duplicate_of threshold tol it u) →
    Greedy threshold tol (accepted ++ [it]) rest out →
    Greedy threshold tol accepted (it :: rest) out.

Definition has_str_name (it : item) : Prop := ∃ s, item_name it = PStr s.

(** The list [unique] at any moment of the loop: every item in it went
    through the inner loop against the items before it, and the loop
    found no duplicate. *)
Inductive Settled (threshold tol : float) : list item → Prop :=
| Settled_nil : Settled threshold tol []
| Settled_snoc unique it :
    Settled threshold tol unique →
    scan_unique L threshold tol it unique = Returns false →
    Settled threshold tol (unique ++ [it]).

(** [dedupe(dedupe(items))] *)
Definition dedupe_twice (items : list item) : outcome pyexc (list item) :=
  obind (dedupe_items_default L items) (dedupe_items_default L).

(** ** The parser (design, 4.2) *)

Definition lbrace : N := 123%N.
Definition rbrace : N := 125%N.

(** Drop the characters before the first [c]. *)
Fixpoint from_first (c : N) (text : pystr) : pystr :=
  match text with
  | [] => []
  | d :: text' => if N.eqb d c then text else from_first c text'
  end.

(** Drop the characters after the last [c]. *)
Definition upto_last (c : N) (text : pystr) : pystr :=
  reverse (from_first c (reverse text)).

(** "the first [{] and the last [}] in the text and ... the enclosed
    span": what is left of the text up to its last [}] once everything
    before the first [{] is dropped. *)
Definition json_span (text : pystr) : pystr :=
  drop (length text - length (from_first lbrace text)) (upto_last rbrace text).

Definition NoJsonFoundError : failure :=
  HTTPException 500 (py "Gemini output contains no JSON").

Definition MalformedJsonError (e : pyexc) : failure :=
  HTTPException 500 (py "JSON parsing failed: " ++ exc_str e).

(** ** The rasterizer (design, 4.1) *)

(** A decoder strategy, "each returning a success-or-continue result". *)
Definition strategy : Type := bytes → M (world L) pyexc (list (image L)).

(** Strategies tried in sequence; the failure of the last one is the
    failure of the whole. *)
Fixpoint try_in_order (s : strategy) (fallbacks : list strategy) (b : bytes)
  : M (world L) pyexc (list (image L)) :=
  match fallbacks with
  | [] => s b
  | s' :: rest => try_except (s b) (λ _, try_in_order s' rest b)
  end.

Definition pdf_like (source_hint : pystr) : bool :=
  endswith (lower L source_hint) (py ".pdf").

(** The policy as the design states it: PDF then image for a PDF-like
    hint; image, PDF, image otherwise. *)
Definition rasterize_as_designed (b : bytes) (source_hint : pystr)
  : M (world L) pyexc (list (image L)) :=
  if pdf_like source_hint
  then try_in_order (convert_from_bytes L) [open_as_rgb L] b
  else try_in_order (open_as_rgb L) [convert_from_bytes L; open_as_rgb L] b.

(** The policy the code follows: one handler serves both branches, so a
    PDF-like hint has PDF conversion tried twice before the image. *)
Definition fallback_chain (source_hint : pystr) : strategy * list strategy :=
  if pdf_like source_hint
  then (convert_from_bytes L, [convert_from_bytes L; open_as_rgb L])
  else (open_as_rgb L, [convert_from_bytes L; open_as_rgb L]).

(** Every strategy of a chain fails, one after the other; [e] is what
    the last one raised and [w'] the world it left. *)
Inductive Exhausted (b : bytes) : strategy → list strategy → world L → pyexc → world L → Prop :=
| Exhausted_last s w e w' :
    s b w = (Raises e, w') →
    Exhausted b s [] w e w'
| Exhausted_next s s' rest w e1 w1 e w' :
    s b w = (Raises e1, w1) →
    Exhausted b s' rest w1 e w' →
    Exhausted b s (s' :: rest) w e w'.

(** What the design asks of Pillow and pdf2image: [convert(mode)]
    returns an image of that mode, and the pages pdf2image renders (its
    default output is PPM) are RGB. *)
Record imaging_contract : Prop := {
  convert_gives_mode : ∀ img mode w img' w',
    image_convert L img mode w = (Returns img', w') → image_mode L img' = mode;
  pdf_pages_are_rgb : ∀ b w pages w',
    convert_from_bytes L b w = (Returns pages, w') →
    Forall (λ p, image_mode L p = py "RGB") pages
}.

(** ** Per-item normalization (design, 4.3) *)

(** "casting amount, rate, quantity to floating point and copying
    item_name verbatim; any item whose required fields are missing or
    non-numeric is dropped". *)
Definition field (raw : pyval) (k : pystr) : option pyval :=
  match raw with
  | PDict d => dict_lookup k d
  | _ => None
  end.

Definition numeric_field (raw : pyval) (k : pystr) : option float :=
  match field raw k with
  | Some v => match py_float L v with
              | Returns f => Some f
              | Raises _ => None
              end
  | None => None
  end.

Definition normalize_item (raw : pyval) : option item :=
  match field raw (py "item_name"), numeric_field raw (py "amount"),
        numeric_field raw (py "rate"), numeric_field raw (py "quantity") with
  | Some name, Some amount, Some rate, Some quantity =>
      Some {| item_name := name; item_amount := amount;
              item_rate := rate; item_quantity := quantity |}
  | _, _, _, _ => None
  end.

(** ** The orchestrator (design, 4.5) *)

(** The raw items of a parsed page, when [items] can be iterated. *)
Definition raw_items_of (data : pyval) : outcome pyexc (list pyval) :=
  obind (py_get data (py "items") (PList [])) py_iter.

(** The page extractor called on each page in turn, every call
    succeeding: [datas] are the parsed pages, in page order. *)
Inductive PagesExtracted : list (image L) → world L → list pyval → world L → Prop :=
| PagesExtracted_nil w :
    PagesExtracted [] w [] w
| PagesExtracted_cons img rest w data t i o w1 datas w2 :
    call_gemini_page L img w = (Returns (data, t, i, o), w1) →
    PagesExtracted rest w1 datas w2 →
    PagesExtracted (img :: rest) w (data :: datas) w2.

(** The items of one page that survive normalization. *)
Definition coerced_items (data : pyval) : list item :=
  match raw_items_of data with
  | Returns raws => omap normalize_item raws
  | Raises _ => []
  end.

(** "the sum of all [bill_items] lengths". *)
Definition bill_items_total (pagewise : list page_line_items) : Z :=
  foldr (λ p acc, len (bill_items p) + acc) 0 pagewise.

End Specification.

(* ================================================================== *)
(** * More vocabulary for the page loop *)

Section PageVocabulary.
Context (L : Library).

(** The values [for item in v] refuses. *)
Definition scalar (v : pyval) : Prop :=
  match v with
  | PNone | PBool _ | PInt _ | PFloat _ => True
  | PStr _ | PList _ | PDict _ => False
  end.

(** The values of [items] that can be gone through and give no bill
    item: the empty list, a string (its characters are not dicts) and a
    dict (its keys are not dicts). *)
Definition yields_nothing (v : pyval) : Prop :=
  match v with
  | PList [] | PStr _ | PDict _ => True
  | _ => False
  end.

(** A parsed page whose [items] can be gone through. *)
Definition iterable (data : pyval) : Prop :=
  ∃ raws, raw_items_of data = Returns raws.

(** What [call_gemini_page] returned for a page, when the three
    counters are integers. *)
Definition reply_data (r : pyval * Z * Z * Z) : pyval := r.1.1.1.
Definition reply_total (r : pyval * Z * Z * Z) : Z := r.1.1.2.
Definition reply_input (r : pyval * Z * Z * Z) : Z := r.1.2.
Definition reply_output (r : pyval * Z * Z * Z) : Z := r.2.

(** The tuple [call_gemini_page] returns for such a reply. *)
Definition returned (r : pyval * Z * Z * Z) : pyval * option Z * option Z * option Z :=
  (reply_data r, Some (reply_total r), Some (reply_input r), Some (reply_output r)).

(** The pages sent to the model one after the other, every call
    returning, with counters that are integers: [replies] are the
    tuples returned, in page order. *)
Inductive PagesCalled : list (image L) → world L → list (pyval * Z * Z * Z) → world L → Prop :=
| PagesCalled_nil w :
    PagesCalled [] w [] w
| PagesCalled_cons img rest w r w1 replies w2 :
    call_gemini_page L img w = (Returns (returned r), w1) →
    PagesCalled rest w1 replies w2 →
    PagesCalled (img :: rest) w (r :: replies) w2.

(** The entry of [pagewise_output] for page [n] with parsed object
    [data]. *)
Definition page_entry (n : Z) (data : pyval) : page_line_items :=
  {| page_no := n;
     page_type := default (PStr (py "Bill Detail")) (field data (py "page_type"));
     bill_items := coerced_items L data |}.

Definition sum_of (f : pyval * Z * Z * Z → Z) (replies : list (pyval * Z * Z * Z)) : Z :=
  foldr (λ r acc, f r + acc) 0 replies.

(** All the items of the document, page after page. *)
Definition document_items (replies : list (pyval * Z * Z * Z)) : list item :=
  concat (map (λ r, coerced_items L (reply_data r)) replies).

(** What [extract_from_document] returns for the given replies and
    unique items. *)
Definition extraction_of (replies : list (pyval * Z * Z * Z)) (unique : list item)
  : extraction :=
  {| ex_pagewise_output :=
       zip_with page_entry (seqZ 1 (len replies)) (map reply_data replies);
     ex_unique_items := unique;
     ex_total_item_count := len unique;
     ex_total_tokens := sum_of reply_total replies;
     ex_input_tokens := sum_of reply_input replies;
     ex_output_tokens := sum_of reply_output replies |}.

(** The variables of the page loop after the pages numbered from [n]
    on returned [replies]. *)
Definition advance (n : Z) (st : loop_state) (replies : list (pyval * Z * Z * Z))
  : loop_state :=
  {| all_items := all_items st ++ document_items replies;
     pagewise_output := pagewise_output st ++
       zip_with page_entry (seqZ n (len replies)) (map reply_data replies);
     total_tokens := total_tokens st + sum_of reply_total replies;
     input_tokens := input_tokens st + sum_of reply_input replies;
     output_tokens := output_tokens st + sum_of reply_output replies |}.

(** The variables as [extract_from_document] sets them before the
    loop. *)
Definition initial_state : loop_state :=
  {| all_items := []; pagewise_output := [];
     total_tokens := 0; input_tokens := 0; output_tokens := 0 |}.

(** What [total_tokens += t] raises when [t] is [None]. *)
Definition counter_is_none : pyexc :=
  TypeError (py "unsupported operand type(s) for +=: 'int' and 'NoneType'").

(** The ways a page can stop the loop: [call_gemini_page] raises, or
    one of the counters it returned is [None] and cannot be added, or
    the [items] of the parsed object cannot be gone through. *)
Definition page_fails (img : image L) (w : world L) (f : failure) (w' : world L) : Prop :=
  call_gemini_page L img w = (Raises f, w') ∨
  (∃ data t i o, call_gemini_page L img w = (Returns (data, t, i, o), w') ∧
                 (t = None ∨ i = None ∨ o = None) ∧
                 f = Uncaught counter_is_none) ∨
  (∃ r e, call_gemini_page L img w = (Returns (returned r), w') ∧
          raw_items_of (reply_data r) = Raises e ∧ f = Uncaught e).

End PageVocabulary.

(* ================================================================== *)
(** * A library to run the examples on

    A scripted stand-in for the imported libraries: the world holds a
    log of the calls made and what the PDF converter and the model
    service will answer next. *)

Module Lab.

Inductive call := CallPdf | CallOpen | CallConvert | CallModel | CallGet.

Record picture := { mode : pystr; page : Z }.

Record state := {
  log : list call;
  (** page counts the PDF converter will return, or what it will raise *)
  pdf_script : list (outcome pyexc Z);
  (** what the model service will answer *)
  model_script : list (outcome pyexc response)
}.

Definition logged (c : call) (w : state) : state :=
  {| log := log w ++ [c]; pdf_script := pdf_script w; model_script := model_script w |}.

Definition PDFSyntaxError : pyexc :=
  PyExc (py "PDFPageCountError") (py "Unable to get page count.").

Definition UnidentifiedImageError : pyexc :=
  PyExc (py "UnidentifiedImageError") (py "cannot identify image file").

Definition ServerError : pyexc :=
  PyExc (py "ServerError") (py "503 UNAVAILABLE").

Definition JSONDecodeError : pyexc :=
  PyExc (py "JSONDecodeError") (py "Expecting value: line 1 column 1 (char 0)").

Definition ValueError (s : pystr) : pyexc :=
  PyExc (py "ValueError") (py "could not convert string to float: '" ++ s ++ py "'").

Definition rendered (n : Z) : list picture :=
  map (λ i, {| mode := py "RGB"; page := i |}) (seqZ 1 n).

Definition convert_from_bytes (b : bytes) (w : state)
  : outcome pyexc (list picture) * state :=
  let w := logged CallPdf w in
  match pdf_script w with
  | [] => (Raises PDFSyntaxError, w)
  | r :: rest =>
      (match r with
       | Returns n => Returns (rendered n)
       | Raises e => Raises e
       end,
       {| log := log w; pdf_script := rest; model_script := model_script w |})
  end.

(** Only a PNG signature is recognised. *)
Definition image_open (b : bytes) (w : state) : outcome pyexc picture * state :=
  let w := logged CallOpen w in
  match b with
  | Byte.x89 :: Byte.x50 :: Byte.x4e :: Byte.x47 :: _ =>
      (Returns {| mode := py "RGBA"; page := 0 |}, w)
  | _ => (Raises UnidentifiedImageError, w)
  end.

Definition image_convert (img : picture) (m : pystr) (w : state)
  : outcome pyexc picture * state :=
  (Returns {| mode := m; page := page img |}, logged CallConvert w).

Definition generate_content (img : picture) (w : state)
  : outcome pyexc response * state :=
  let w := logged CallModel w in
  match model_script w with
  | [] => (Raises ServerError, w)
  | r :: rest =>
      (r, {| log := log w; pdf_script := pdf_script w; model_script := rest |})
  end.

Definition requests_get (url : pystr) (w : state) : outcome pyexc bytes * state :=
  (Returns [Byte.x89; Byte.x50; Byte.x4e; Byte.x47], logged CallGet w).

Definition lower_cp (c : N) : N :=
  if ((65 <=? c) && (c <=? 90))%N then (c + 32)%N else c.

(** Lowercasing of ASCII text. *)
Definition lower (s : pystr) : pystr := map lower_cp s.

Fixpoint table_lookup {A} (k : pystr) (t : list (pystr * A)) : option A :=
  match t with
  | [] => None
  | (k', v) :: t' => if pystr_eqb k k' then Some v else table_lookup k t'
  end.

(** [json.loads] and [float] know the texts of their tables and refuse
    every other. *)
Definition json_loads (table : list (pystr * pyval)) (s : pystr) : outcome pyexc pyval :=
  match table_lookup s table with
  | Some v => Returns v
  | None => Raises JSONDecodeError
  end.

Definition float_of_str (table : list (pystr * float)) (s : pystr) : outcome pyexc float :=
  match table_lookup s table with
  | Some f => Returns f
  | None => Raises (ValueError s)
  end.

Definition library (jsons : list (pystr * pyval)) (floats : list (pystr * float)) : Library :=
  Build_Library state picture mode lower (float_of_str floats) (json_loads jsons)
    convert_from_bytes image_open image_convert generate_content requests_get.

End Lab.

(* ================================================================== *)
(** * Example data *)

Module Sample.

Definition quoted (s : pystr) : pystr := (34%N :: s) ++ [34%N].

(** Decimal digits of a natural number, most significant first. *)
Fixpoint digits (fuel : nat) (n : N) (acc : pystr) : pystr :=
  match fuel with
  | O => acc
  | S fuel' =>
      let acc' := (48 + n mod 10)%N :: acc in
      if (n <? 10)%N then acc' else digits fuel' (n / 10)%N acc'
  end.

Definition int_repr (z : Z) : pystr :=
  match z with
  | Z0 => py "0"
  | Zpos p => digits (Pos.to_nat p) (Npos p) []
  | Zneg p => 45%N :: digits (Pos.to_nat p) (Npos p) []
  end.

Fixpoint float_repr (table : list (float * pystr)) (f : float) : pystr :=
  match table with
  | [] => py "NaN"
  | (g, s) :: table' => if PrimFloat.eqb g f then s else float_repr table' f
  end.

(** The JSON text of a value, as [json.dumps] lays it out, for strings
    that need no escape and the floats listed in [floats]. *)
Fixpoint dumps (floats : list (float * pystr)) (v : pyval) : pystr :=
  match v with
  | PNone => py "null"
  | PBool true => py "true"
  | PBool false => py "false"
  | PInt z => int_repr z
  | PFloat f => float_repr floats f
  | PStr s => quoted s
  | PList l =>
      py "[" ++
      (fix elements (l : list pyval) : pystr :=
         match l with
         | [] => []
         | x :: l' =>
             dumps floats x ++
             match l' with [] => [] | _ :: _ => py ", " ++ elements l' end
         end) l ++ py "]"
  | PDict d =>
      py "{" ++
      (fix entries (d : list (pystr * pyval)) : pystr :=
         match d with
         | [] => []
         | (k, x) :: d' =>
             quoted k ++ py ": " ++ dumps floats x ++
             match d' with [] => [] | _ :: _ => py ", " ++ entries d' end
         end) d ++ py "}"
  end.

Definition floats : list (float * pystr) :=
  [(10%float, py "10.0"); (10.5%float, py "10.5"); (5%float, py "5.0");
   (5.5%float, py "5.5"); (8%float, py "8.0"); (1%float, py "1.0");
   (2%float, py "2.0"); (2.5%float, py "2.5")].

Definition json_dumps (v : pyval) : pystr := dumps floats v.

Definition raw_item (name : pystr) (quantity rate amount : pyval) : pyval :=
  PDict [(py "item_name", PStr name); (py "quantity", quantity);
         (py "rate", rate); (py "amount", amount)].

Definition bill_item (name : pystr) (quantity rate amount : float) : item :=
  {| item_name := PStr name; item_amount := amount;
     item_rate := rate; item_quantity := quantity |}.

(** The two examples of the design, section 8. *)
Definition paracetamols : list item :=
  [bill_item (py "Paracetamol 500mg") 1 10 10;
   bill_item (py "Paracetamol 500 mg") 1 10.5 10.5].

Definition syringes : list item :=
  [bill_item (py "Syringe") 1 5 5; bill_item (py "Syringe") 1 8 8].

(** Page 1 of a two-page bill: items A and B. *)
Definition page1 : pyval :=
  PDict [(py "page_type", PStr (py "Pharmacy"));
         (py "items",
          PList [raw_item (py "Paracetamol 500mg") (PInt 1) (PFloat 10) (PFloat 10);
                 raw_item (py "Syringe") (PInt 2) (PFloat 2.5) (PFloat 5)])].

(** Page 2: B again, the amount half a unit off; no [page_type]. *)
Definition page2 : pyval :=
  PDict [(py "items",
          PList [raw_item (py "syringe") (PInt 2) (PFloat 2.5) (PFloat 5.5)])].

(** A page with two items that normalization drops: a non-numeric
    amount and a missing rate. *)
Definition page_with_bad_items : pyval :=
  PDict [(py "page_type", PStr (py "Bill Detail"));
         (py "items",
          PList [raw_item (py "Syringe") (PInt 1) (PFloat 5) (PFloat 5);
                 raw_item (py "X-ray") (PInt 1) (PFloat 8) (PStr (py "n/a"));
                 PDict [(py "item_name", PStr (py "Gauze"));
                        (py "quantity", PInt 1); (py "amount", PFloat 2)];
                 PStr (py "subtotal");
                 raw_item (py "Bandage") (PBool true) (PStr (py "2.5")) (PInt 2)])].

Definition jsons : list (pystr * pyval) :=
  map (λ v, (json_dumps v, v)) [page1; page2; page_with_bad_items].

Definition lab : Library := Lab.library jsons [(py "2.5", 2.5%float)].

(** What the model answers: the JSON inside some chatter. *)
Definition reply (v : pyval) (total : Z) : outcome pyexc response :=
  Returns {| text := Some (py "Here is the JSON you asked for: " ++ json_dumps v
                           ++ py " Let me know if you need anything else.");
             usage := Some {| total_token_count := Attribute (Some total);
                              input_token_count := NoAttribute;
                              output_token_count := NoAttribute |} |}.

Definition png : bytes := [Byte.x89; Byte.x50; Byte.x4e; Byte.x47; Byte.x0d; Byte.x0a].

Definition not_an_image : bytes := [Byte.x00; Byte.x01].

Definition start (pdf : list (outcome pyexc Z)) (model : list (outcome pyexc response))
  : Lab.state :=
  {| Lab.log := []; Lab.pdf_script := pdf; Lab.model_script := model |}.

(** The two-page bill of the design's end-to-end example. *)
Definition two_page_world : Lab.state :=
  start [Returns 2] [reply page1 120; reply page2 80].

Definition two_page_result : extraction :=
  {| ex_pagewise_output :=
       [{| page_no := 1; page_type := PStr (py "Pharmacy");
           bill_items := [bill_item (py "Paracetamol 500mg") 1 10 10;
                          bill_item (py "Syringe") 2 2.5 5] |};
        {| page_no := 2; page_type := PStr (py "Bill Detail");
           bill_items := [bill_item (py "syringe") 2 2.5 5.5] |}];
     ex_unique_items := [bill_item (py "Paracetamol 500mg") 1 10 10;
                         bill_item (py "Syringe") 2 2.5 5];
     ex_total_item_count := 2;
     ex_total_tokens := 200;
     ex_input_tokens := 0;
     ex_output_tokens := 0 |}.

Definition reversed_text : pystr := py "} and then {".

Definition chatter : pystr :=
  py "Here it is: " ++ json_dumps page2 ++ py " Anything else?".

Definition page2_body : pystr :=
  take (length (json_dumps page2) - 2) (drop 1 (json_dumps page2)).

(** A [.pdf] hint on bytes the converter refuses once and renders the
    second time, and on bytes it always refuses. *)
Definition flaky_pdf : Lab.state := start [Raises Lab.PDFSyntaxError; Returns 2] [].
Definition never_pdf : Lab.state := start [] [].
Definition pdf_hint : pystr := py "https://example.org/Scan.PDF".
Definition png_hint : pystr := py "https://example.org/scan.png".

Definition exhausted_world : Lab.state :=
  {| Lab.log := [Lab.CallOpen; Lab.CallPdf; Lab.CallOpen];
     Lab.pdf_script := []; Lab.model_script := [reply page1 120] |}.

Definition first_page : Lab.picture := {| Lab.mode := py "RGB"; Lab.page := 1 |}.

Definition bad_items_world : Lab.state := start [] [reply page_with_bad_items 50].

Definition bad_items_raws : list pyval :=
  match dict_lookup (py "items") match page_with_bad_items with
                                 | PDict d => d
                                 | _ => []
                                 end with
  | Some (PList l) => l
  | _ => []
  end.

Definition no_pages : loop_state :=
  {| all_items := []; pagewise_output := [];
     total_tokens := 0; input_tokens := 0; output_tokens := 0 |}.

End Sample.

(* ================================================================== *)
(** * More example data: pages that go wrong *)

Module Sample2.
Import Sample.

Definition paracetamol_a : item := bill_item (py "Paracetamol 500mg") 1 10 10.
Definition paracetamol_b : item := bill_item (py "Paracetamol 500 mg") 1 10.5 10.5.

(** [items] is [null]. *)
Definition null_items_fields : list (pystr * pyval) :=
  [(py "page_type", PStr (py "Final Bill")); (py "items", PNone)].

Definition page_null_items : pyval := PDict null_items_fields.

(** Only a [page_type]: the model found nothing but totals. *)
Definition no_items_fields : list (pystr * pyval) :=
  [(py "page_type", PStr (py "Final Bill"))].

Definition page_no_items : pyval := PDict no_items_fields.

(** [items] is a string. *)
Definition page_str_items : pyval :=
  PDict [(py "items", PStr (py "none"))].

(** The first item has [null] for a name. *)
Definition page_null_name : pyval :=
  PDict [(py "items",
          PList [PDict [(py "item_name", PNone); (py "quantity", PInt 1);
                        (py "rate", PFloat 5); (py "amount", PFloat 5)];
                 raw_item (py "Syringe") (PInt 1) (PFloat 8) (PFloat 8)])].

Definition jsons2 : list (pystr * pyval) :=
  jsons ++ map (λ v, (json_dumps v, v))
               [page_null_items; page_no_items; page_str_items; page_null_name].

Definition lab2 : Library := Lab.library jsons2 [(py "2.5", 2.5%float)].

Definition after_one_call : Lab.state :=
  {| Lab.log := [Lab.CallModel]; Lab.pdf_script := []; Lab.model_script := [] |}.

(** A reply without any JSON in it. *)
Definition refusal : outcome pyexc response :=
  Returns {| text := Some (py "Sorry, I cannot read this page.");
             usage := None |}.

(** A reply without text parts: [res.text] is [None]. *)
Definition reply_without_text : outcome pyexc response :=
  Returns {| text := None; usage := None |}.

(** A reply whose [total_token_count] is there and holds [None]. *)
Definition reply_with_unknown_total (v : pyval) : outcome pyexc response :=
  Returns {| text := Some (json_dumps v);
             usage := Some {| total_token_count := Attribute None;
                              input_token_count := NoAttribute;
                              output_token_count := NoAttribute |} |}.

(** Two pages; the model answers the first and refuses the second. *)
Definition second_page_refused : Lab.state :=
  start [Returns 2] [reply page1 120; refusal].

Definition picture_of_page (n : Z) : Lab.picture :=
  {| Lab.mode := py "RGB"; Lab.page := n |}.

Definition wrapper_before : pystr := py "Here it is: ".
Definition wrapper_after : pystr := py " Anything else?".

(** The worlds the examples go through. *)
Definition logged_world (calls : list Lab.call)
    (model : list (outcome pyexc response)) : Lab.state :=
  {| Lab.log := calls; Lab.pdf_script := []; Lab.model_script := model |}.

Definition null_name_replies : list (pyval * Z * Z * Z) :=
  [(page_null_name, 30, 0, 0)].

Definition null_name_items : list item :=
  [{| item_name := PNone; item_amount := 5; item_rate := 5; item_quantity := 1 |};
   bill_item (py "Syringe") 1 8 8].

End Sample2.

(* ================================================================== *)
(** * Facts about the string primitives *)

Lemma len_nonneg {A} (l : list A) : 0 ≤ len l.
Proof. unfold len. lia. Qed.

Lemma len_app {A} (l1 l2 : list A) : len (l1 ++ l2) = len l1 + len l2.
Proof. unfold len. rewrite length_app. lia. Qed.

Lemma startswith_single (c : N) (text : pystr) :
  startswith_b [c] text = true ↔ ∃ rest, text = c :: rest.
Proof.
  destruct text as [|d rest]; simpl.
  - split; [discriminate | intros [? ?]; discriminate].
  - rewrite andb_true_r, N.eqb_eq. split.
    + intros ->. eauto.
    + intros [? [= -> _]]. reflexivity.
Qed.

Lemma startswith_single_ne (c d : N) (rest : pystr) :
  d ≠ c → startswith_b [c] (d :: rest) = false.
Proof.
  intros Hne. simpl. rewrite andb_true_r. apply N.eqb_neq. congruence.
Qed.

Lemma startswith_single_eq (c : N) (rest : pystr) :
  startswith_b [c] (c :: rest) = true.
Proof. simpl. rewrite N.eqb_refl. reflexivity. Qed.

(** [find] of a character that does not occur. *)
Lemma find_from_absent (c : N) (text : pystr) (i : Z) :
  c ∉ text → find_from [c] text i = -1.
Proof.
  revert i. induction text as [|d text IH]; intros i Hnot.
  - reflexivity.
  - apply not_elem_of_cons in Hnot as [Hne Hnot].
    cbn [find_from]. rewrite startswith_single_ne by congruence.
    apply IH, Hnot.
Qed.

(** [find] stops at the first occurrence. *)
Lemma find_from_first (c : N) (pre post : pystr) (i : Z) :
  c ∉ pre → find_from [c] (pre ++ c :: post) i = i + len pre.
Proof.
  revert i. induction pre as [|d pre IH]; intros i Hnot.
  - cbn [app find_from]. rewrite startswith_single_eq. unfold len. simpl. lia.
  - apply not_elem_of_cons in Hnot as [Hne Hnot].
    cbn [app find_from]. rewrite startswith_single_ne by congruence.
    rewrite IH by assumption. unfold len. simpl length. lia.
Qed.

Lemma rfind_from_absent (c : N) (text : pystr) (i last : Z) :
  c ∉ text → rfind_from [c] text i last = last.
Proof.
  revert i last. induction text as [|d text IH]; intros i last Hnot.
  - reflexivity.
  - apply not_elem_of_cons in Hnot as [Hne Hnot].
    cbn [rfind_from]. rewrite startswith_single_ne by congruence.
    apply IH, Hnot.
Qed.

(** [rfind] keeps the last occurrence. *)
Lemma rfind_from_last (c : N) (pre post : pystr) (i last : Z) :
  c ∉ post → rfind_from [c] (pre ++ c :: post) i last = i + len pre.
Proof.
  revert i last. induction pre as [|d pre IH]; intros i last Hnot.
  - cbn [app rfind_from]. rewrite startswith_single_eq.
    rewrite rfind_from_absent by assumption. unfold len. simpl. lia.
  - cbn [app rfind_from]. rewrite IH by assumption.
    unfold len. simpl length. lia.
Qed.

(** A character that occurs has a first and a last occurrence. *)
Lemma split_at_first (c : N) (text : pystr) :
  c ∈ text → ∃ pre post, text = pre ++ c :: post ∧ c ∉ pre.
Proof.
  induction text as [|d text IH]; intros Hin.
  - inversion Hin.
  - destruct (decide (d = c)) as [->|Hne].
    + exists [], text. split; [reflexivity | apply not_elem_of_nil].
    + apply elem_of_cons in Hin as [->|Hin]; [congruence|].
      destruct (IH Hin) as (pre & post & -> & Hnot).
      exists (d :: pre), post. split; [reflexivity|].
      apply not_elem_of_cons. split; [congruence | assumption].
Qed.

Lemma split_at_last (c : N) (text : pystr) :
  c ∈ text → ∃ pre post, text = pre ++ c :: post ∧ c ∉ post.
Proof.
  intros Hin. apply elem_of_reverse in Hin.
  destruct (split_at_first _ _ Hin) as (pre & post & Heq & Hnot).
  exists (reverse post), (reverse pre). split.
  - rewrite <- (reverse_involutive text), Heq.
    rewrite reverse_app, reverse_cons, <- app_assoc. reflexivity.
  - rewrite elem_of_reverse. assumption.
Qed.

Lemma find_absent_iff (c : N) (text : pystr) :
  find text [c] = -1 ↔ c ∉ text.
Proof.
  split.
  - intros Hfind Hin.
    destruct (split_at_first _ _ Hin) as (pre & post & -> & Hnot).
    unfold find in Hfind. rewrite find_from_first in Hfind by assumption.
    pose proof (len_nonneg pre). lia.
  - apply find_from_absent.
Qed.

Lemma rfind_absent_iff (c : N) (text : pystr) :
  rfind text [c] = -1 ↔ c ∉ text.
Proof.
  split.
  - intros Hfind Hin.
    destruct (split_at_last _ _ Hin) as (pre & post & -> & Hnot).
    unfold rfind in Hfind. rewrite rfind_from_last in Hfind by assumption.
    pose proof (len_nonneg pre). lia.
  - intros Hnot. unfold rfind. apply rfind_from_absent, Hnot.
Qed.

Lemma from_first_absent (c : N) (text : pystr) :
  c ∉ text → from_first c text = [].
Proof.
  induction text as [|d text IH]; intros Hnot; [reflexivity|].
  apply not_elem_of_cons in Hnot as [Hne Hnot]. simpl.
  destruct (N.eqb_spec d c); [congruence | auto].
Qed.

Lemma from_first_split (c : N) (pre post : pystr) :
  c ∉ pre → from_first c (pre ++ c :: post) = c :: post.
Proof.
  induction pre as [|d pre IH]; intros Hnot; simpl.
  - rewrite N.eqb_refl. reflexivity.
  - apply not_elem_of_cons in Hnot as [Hne Hnot].
    destruct (N.eqb_spec d c); [congruence | auto].
Qed.

Lemma upto_last_absent (c : N) (text : pystr) :
  c ∉ text → upto_last c text = [].
Proof.
  intros Hnot. unfold upto_last. rewrite from_first_absent; [reflexivity|].
  rewrite elem_of_reverse. assumption.
Qed.

Lemma upto_last_split (c : N) (pre post : pystr) :
  c ∉ post → upto_last c (pre ++ c :: post) = pre ++ [c].
Proof.
  intros Hnot. unfold upto_last.
  rewrite reverse_app, reverse_cons, <- app_assoc. simpl.
  rewrite from_first_split by (rewrite elem_of_reverse; assumption).
  rewrite reverse_cons, reverse_involutive. reflexivity.
Qed.

(** A slice with both bounds inside the text. *)
Lemma slice_inside {A} (text : list A) (start stop : Z) :
  0 ≤ start ≤ len text → 0 ≤ stop ≤ len text →
  slice text start stop = drop (Z.to_nat start) (take (Z.to_nat stop) text).
Proof.
  intros Hs He. unfold slice, clamp_index.
  destruct (Z.ltb_spec start 0); [lia|].
  destruct (Z.ltb_spec stop 0); [lia|].
  rewrite !Z.min_l by lia. reflexivity.
Qed.

Lemma startswith_b_prefix (sub text : pystr) :
  startswith_b sub text = true ↔ ∃ rest, text = sub ++ rest.
Proof.
  revert text. induction sub as [|c sub IH]; intros text.
  - split; [intros _; exists text; reflexivity | reflexivity].
  - destruct text as [|d text]; cbn [startswith_b].
    + split; [discriminate | intros [rest Heq]; discriminate].
    + rewrite andb_true_iff, N.eqb_eq, IH. split.
      * intros [-> [rest ->]]. exists rest. reflexivity.
      * intros [rest [= -> ->]]. split; [reflexivity | exists rest; reflexivity].
Qed.

(** [endswith] holds exactly of the texts that end with the suffix. *)
Lemma endswith_suffix (text sub : pystr) :
  endswith text sub = true ↔ ∃ front, text = front ++ sub.
Proof.
  unfold endswith. rewrite startswith_b_prefix. split.
  - intros [rest Heq]. exists (reverse rest).
    rewrite <- (reverse_involutive text), Heq, reverse_app, reverse_involutive.
    reflexivity.
  - intros [front ->]. exists (reverse front). apply reverse_app.
Qed.

(* ================================================================== *)
(** * SequenceMatcher: the longest match lies in its region, and the
      loop of [get_matching_blocks] ends within its fuel *)

Module DifflibFacts.
Import Difflib.

Section Region.
Variables (a b : pystr) (alo ahi blo bhi : Z).

Local Abbreviation inside := (Difflib.inside alo ahi blo bhi).
Local Abbreviation lengths_below := (Difflib.lengths_below alo blo).

Lemma j2len_get_bound (i : Z) (j2len : list (Z * Z)) (j : Z) :
  lengths_below i j2len →
  j2len_get j2len j = 0 ∨
  (1 ≤ j2len_get j2len j ∧ j2len_get j2len j ≤ i - alo ∧ j2len_get j2len j ≤ j - blo + 1).
Proof.
  induction j2len as [|[j' k] rest IH]; intros Hb; [left; reflexivity|].
  cbn [j2len_get]. destruct (Z.eqb_spec j' j) as [->|Hne].
  - right. apply Hb. apply elem_of_cons. left. reflexivity.
  - apply IH. intros j0 k0 Hin. apply Hb. apply elem_of_cons. right. exact Hin.
Qed.

Lemma scan_row_inside (js : list Z) (i : Z) (j2len newj2len : list (Z * Z)) (best : Match) :
  alo ≤ i < ahi →
  lengths_below i j2len → lengths_below (i + 1) newj2len → inside best →
  lengths_below (i + 1) (fst (scan_row js i blo bhi j2len newj2len best)) ∧
  inside (snd (scan_row js i blo bhi j2len newj2len best)).
Proof.
  intros Hi Hold. revert newj2len best.
  induction js as [|j js IH]; intros newj2len best Hnew Hbest.
  - split; assumption.
  - cbn [scan_row]. destruct (Z.ltb_spec j blo) as [Hlo|Hlo]; [apply IH; assumption|].
    destruct (Z.leb_spec bhi j) as [Hhi|Hhi]; [split; assumption|].
    pose proof (j2len_get_bound i j2len (j - 1) Hold) as Hget.
    set (k := j2len_get j2len (j - 1) + 1) in *.
    assert (Hk : 1 ≤ k ∧ k ≤ i - alo + 1 ∧ k ≤ j - blo + 1) by (subst k; lia).
    apply IH.
    + intros j0 k0 Hin. apply elem_of_cons in Hin as [[= -> ->]|Hin];
        [lia | apply Hnew; exact Hin].
    + destruct (Z.ltb_spec (m_size best) k); [|assumption].
      unfold Difflib.inside. cbn [m_a m_b m_size]. lia.
Qed.

Lemma scan_rows_inside (n : nat) (i : Z) (j2len : list (Z * Z)) (best : Match) :
  alo ≤ i → i + Z.of_nat n ≤ ahi →
  lengths_below i j2len → inside best →
  inside (scan_rows a b (seqZ i (Z.of_nat n)) blo bhi j2len best).
Proof.
  revert i j2len best. induction n as [|n IH]; intros i j2len best Hlo Hhi Hlen Hbest.
  - exact Hbest.
  - rewrite Nat2Z.inj_succ, seqZ_cons by lia. cbn [scan_rows].
    replace (Z.pred (Z.succ (Z.of_nat n))) with (Z.of_nat n) by lia.
    set (js := match at_index a i with Some c => b2j_get b c | None => [] end).
    assert (Hrow : lengths_below (i + 1) (fst (scan_row js i blo bhi j2len [] best)) ∧
                   inside (snd (scan_row js i blo bhi j2len [] best))).
    { apply scan_row_inside; [lia | assumption | | assumption].
      intros j k Hin. inversion Hin. }
    destruct (scan_row js i blo bhi j2len [] best) as [newj2len best'].
    destruct Hrow as [Hnew Hbest']. cbn [fst snd] in Hnew, Hbest'.
    apply IH; try assumption; lia.
Qed.

Lemma extend_left_inside (fuel : nat) (best : Match) :
  inside best → inside (extend_left fuel a b alo blo best).
Proof.
  revert best. induction fuel as [|fuel IH]; intros [i j k] Hbest; [exact Hbest|].
  cbn [extend_left].
  destruct (Z.ltb_spec alo i); cbn [andb]; [|exact Hbest].
  destruct (Z.ltb_spec blo j); cbn [andb]; [|exact Hbest].
  destruct (bool_decide _); [|exact Hbest].
  apply IH. unfold Difflib.inside in *. cbn [m_a m_b m_size] in *. lia.
Qed.

Lemma extend_right_inside (fuel : nat) (best : Match) :
  inside best → inside (extend_right fuel a b ahi bhi best).
Proof.
  revert best. induction fuel as [|fuel IH]; intros [i j k] Hbest; [exact Hbest|].
  cbn [extend_right].
  destruct (Z.ltb_spec (i + k) ahi); cbn [andb]; [|exact Hbest].
  destruct (Z.ltb_spec (j + k) bhi); cbn [andb]; [|exact Hbest].
  destruct (bool_decide _); [|exact Hbest].
  apply IH. unfold Difflib.inside in *. cbn [m_a m_b m_size] in *. lia.
Qed.

(** [find_longest_match] returns a block of its region. *)
Lemma find_longest_match_inside :
  alo ≤ ahi → blo ≤ bhi → inside (find_longest_match a b alo ahi blo bhi).
Proof.
  intros Ha Hb. unfold find_longest_match.
  apply extend_right_inside, extend_left_inside.
  replace (ahi - alo) with (Z.of_nat (Z.to_nat (ahi - alo))) by lia.
  apply scan_rows_inside; try lia.
  - intros j k Hin. inversion Hin.
  - unfold Difflib.inside. cbn [m_a m_b m_size]. lia.
Qed.

End Region.

(** The two loops that grow a block stop by themselves before their
    fuel is spent: more fuel changes nothing. *)
Lemma extend_left_stops (a b : pystr) (alo blo : Z) (fuel : nat) (best : Match) :
  (Z.to_nat (m_a best - alo) ≤ fuel)%nat →
  extend_left fuel a b alo blo best
  = extend_left (Z.to_nat (m_a best - alo)) a b alo blo best.
Proof.
  revert best. induction fuel as [|fuel IH]; intros [i j k]; cbn [m_a]; intros Hle.
  - replace (Z.to_nat (i - alo)) with O by lia. reflexivity.
  - cbn [extend_left]. destruct (Z.ltb_spec alo i) as [Hlt|Hge]; cbn [andb].
    + replace (Z.to_nat (i - alo)) with (S (Z.to_nat (i - 1 - alo))) by lia.
      cbn [extend_left]. destruct (Z.ltb_spec alo i); [|lia]. cbn [andb].
      destruct (blo <? j); cbn [andb]; [|reflexivity].
      destruct (bool_decide _); [|reflexivity].
      apply (IH (mkMatch (i - 1) (j - 1) (k + 1))). cbn [m_a]. lia.
    + replace (Z.to_nat (i - alo)) with O by lia. reflexivity.
Qed.

Lemma extend_right_stops (a b : pystr) (ahi bhi : Z) (fuel : nat) (best : Match) :
  (Z.to_nat (ahi - (m_a best + m_size best)) ≤ fuel)%nat →
  extend_right fuel a b ahi bhi best
  = extend_right (Z.to_nat (ahi - (m_a best + m_size best))) a b ahi bhi best.
Proof.
  revert best. induction fuel as [|fuel IH]; intros [i j k]; cbn [m_a m_size]; intros Hle.
  - replace (Z.to_nat (ahi - (i + k))) with O by lia. reflexivity.
  - cbn [extend_right]. destruct (Z.ltb_spec (i + k) ahi) as [Hlt|Hge]; cbn [andb].
    + replace (Z.to_nat (ahi - (i + k))) with (S (Z.to_nat (ahi - (i + (k + 1))))) by lia.
      cbn [extend_right]. destruct (Z.ltb_spec (i + k) ahi); [|lia]. cbn [andb].
      destruct (j + k <? bhi); cbn [andb]; [|reflexivity].
      destruct (bool_decide _); [|reflexivity].
      apply (IH (mkMatch i j (k + 1))). cbn [m_a m_size]. lia.
    + replace (Z.to_nat (ahi - (i + k))) with O by lia. reflexivity.
Qed.

Lemma work_nonneg (queue : list (Z * Z * Z * Z)) :
  Forall well_formed queue → 0 ≤ work queue.
Proof.
  induction 1 as [|[[[alo ahi] blo] bhi] rest [H1 H2] _ IH]; cbn [work foldr].
  - lia.
  - fold (work rest). lia.
Qed.

(** The loop of [get_matching_blocks] ends when its fuel covers the
    work of the queue. *)
Lemma matching_loop_ends (a b : pystr) (fuel : nat)
    (queue : list (Z * Z * Z * Z)) (blocks : list Match) :
  Forall well_formed queue → work queue ≤ Z.of_nat fuel →
  ∃ found, matching_loop fuel a b queue blocks = Some found.
Proof.
  revert queue blocks. induction fuel as [|fuel IH]; intros queue blocks Hwf Hwork.
  - destruct queue as [|[[[alo ahi] blo] bhi] rest]; [eexists; reflexivity|].
    exfalso. apply Forall_cons in Hwf as [[H1 H2] Hrest].
    pose proof (work_nonneg rest Hrest). cbn [work foldr] in Hwork.
    fold (work rest) in Hwork. lia.
  - destruct queue as [|[[[alo ahi] blo] bhi] rest]; [eexists; reflexivity|].
    apply Forall_cons in Hwf as [[H1 H2] Hrest].
    cbn [work foldr] in Hwork. fold (work rest) in Hwork.
    cbn [matching_loop].
    pose proof (find_longest_match_inside a b alo ahi blo bhi H1 H2) as Hin.
    destruct (find_longest_match a b alo ahi blo bhi) as [i j k].
    unfold Difflib.inside in Hin. cbn [m_a m_b m_size] in Hin.
    destruct (Z.eqb_spec k 0) as [->|Hk].
    + apply IH; [assumption | lia].
    + apply IH.
      * destruct ((i + k <? ahi) && (j + k <? bhi));
          destruct ((alo <? i) && (blo <? j));
          repeat (constructor; [cbn; lia|]); assumption.
      * destruct ((i + k <? ahi) && (j + k <? bhi));
          destruct ((alo <? i) && (blo <? j));
          cbn [work foldr]; fold (work rest); lia.
Qed.

(** [matching_blocks] never falls back on its default. *)
Lemma matching_loop_total (a b : pystr) :
  matching_loop (matching_fuel a) a b [(0, len a, 0, len b)] []
  = Some (matching_blocks a b).
Proof.
  unfold matching_blocks.
  destruct (matching_loop_ends a b (matching_fuel a) [(0, len a, 0, len b)] [])
    as [found ->]; [| |reflexivity].
  - constructor; [|constructor]. cbn. pose proof (len_nonneg a).
    pose proof (len_nonneg b). lia.
  - cbn [work foldr]. unfold matching_fuel, len. lia.
Qed.

(** The ratio is twice the number of matched elements over the two
    lengths together, computed in floats; two empty sequences have
    ratio 1. *)
Lemma ratio_formula (a b : pystr) :
  ratio a b =
  if len a + len b =? 0 then 1%float
  else PrimFloat.div (PrimFloat.mul 2%float (float_of_count (matches a b)))
                     (float_of_count (len a + len b)).
Proof. reflexivity. Qed.

End DifflibFacts.

(* ================================================================== *)
(** * find_json *)

Section FindJson.
Context (L : Library).

(** The slice [text[start:end + 1]] the code cuts is the span of the
    design, whenever both braces occur. *)
Lemma find_json_slice_is_span (text : pystr) :
  lbrace ∈ text → rbrace ∈ text →
  slice text (find text (py "{")) (rfind text (py "}") + 1) = json_span text.
Proof.
  intros Hl Hr.
  destruct (split_at_first _ _ Hl) as (pre1 & post1 & E1 & N1).
  destruct (split_at_last _ _ Hr) as (pre2 & post2 & E2 & N2).
  change (py "{") with [lbrace]. change (py "}") with [rbrace].
  assert (Hfind : find text [lbrace] = len pre1).
  { unfold find. rewrite E1, find_from_first by assumption. lia. }
  assert (Hrfind : rfind text [rbrace] = len pre2).
  { unfold rfind. rewrite E2, rfind_from_last by assumption. lia. }
  assert (Hlen1 : len text = len pre1 + 1 + len post1).
  { rewrite E1, len_app. unfold len. simpl length. lia. }
  assert (Hlen2 : len text = len pre2 + 1 + len post2).
  { rewrite E2, len_app. unfold len. simpl length. lia. }
  pose proof (len_nonneg pre1). pose proof (len_nonneg post1).
  pose proof (len_nonneg pre2). pose proof (len_nonneg post2).
  rewrite Hfind, Hrfind, slice_inside by lia.
  unfold json_span.
  replace (upto_last rbrace text) with (pre2 ++ [rbrace])
    by (rewrite E2 at 1; symmetry; apply upto_last_split; assumption).
  replace (from_first lbrace text) with (lbrace :: post1)
    by (rewrite E1 at 1; symmetry; apply from_first_split; assumption).
  replace (take (Z.to_nat (len pre2 + 1)) text) with (pre2 ++ [rbrace]).
  2:{ rewrite E2 at 1.
      replace (Z.to_nat (len pre2 + 1)) with (length (pre2 ++ [rbrace]))
        by (rewrite length_app; unfold len; simpl; lia).
      rewrite (assoc_L (++) pre2 [rbrace] post2 : pre2 ++ rbrace :: post2 = _).
      rewrite take_app_length. reflexivity. }
  f_equal. unfold len in *. simpl length. lia.
Qed.

(** When the first [{] comes before the last [}], the span is the text
    between them, both included. *)
Lemma json_span_between (pre mid post : pystr) :
  lbrace ∉ pre → rbrace ∉ post →
  json_span (pre ++ lbrace :: mid ++ rbrace :: post) = lbrace :: mid ++ [rbrace].
Proof.
  intros N1 N2. unfold json_span.
  rewrite from_first_split by assumption.
  set (n := (_ - _)%nat).
  assert (Hn : n = length pre) by (subst n; rewrite length_app; lia).
  rewrite Hn. clear n Hn.
  replace (pre ++ lbrace :: mid ++ rbrace :: post)
    with ((pre ++ lbrace :: mid) ++ rbrace :: post)
    by (rewrite <- app_assoc; reflexivity).
  rewrite upto_last_split by assumption.
  rewrite <- (app_assoc pre).
  apply (drop_app_length pre).
Qed.

(** When the last [}] comes before the first [{], the span is empty. *)
Lemma json_span_reversed (text : pystr) :
  lbrace ∈ text → rbrace ∈ text →
  rfind text (py "}") < find text (py "{") → json_span text = [].
Proof.
  intros Hl Hr Hlt.
  destruct (split_at_first _ _ Hl) as (pre1 & post1 & E1 & N1).
  destruct (split_at_last _ _ Hr) as (pre2 & post2 & E2 & N2).
  change (py "{") with [lbrace] in Hlt. change (py "}") with [rbrace] in Hlt.
  assert (Hfind : find text [lbrace] = len pre1).
  { unfold find. rewrite E1, find_from_first by assumption. lia. }
  assert (Hrfind : rfind text [rbrace] = len pre2).
  { unfold rfind. rewrite E2, rfind_from_last by assumption. lia. }
  unfold json_span.
  replace (upto_last rbrace text) with (pre2 ++ [rbrace])
    by (rewrite E2 at 1; symmetry; apply upto_last_split; assumption).
  replace (from_first lbrace text) with (lbrace :: post1)
    by (rewrite E1 at 1; symmetry; apply from_first_split; assumption).
  apply drop_ge. rewrite E1 at 1. rewrite !length_app. simpl length.
  unfold len in *. lia.
Qed.

Lemma no_json_is_not_malformed {A} (e : pyexc) :
  @Raises failure A (MalformedJsonError e) ≠ Raises NoJsonFoundError.
Proof.
  intros H.
  apply (f_equal (λ o, match o with
                       | Raises (HTTPException _ (c :: _)) => c
                       | _ => 0%N
                       end)) in H.
  vm_compute in H. discriminate.
Qed.

(** What [find_json] does in each of its three cases. *)
Lemma find_json_cases (text : pystr) :
  (lbrace ∉ text ∨ rbrace ∉ text → find_json L text = Raises NoJsonFoundError) ∧
  (lbrace ∈ text → rbrace ∈ text →
   find_json L text =
     match json_loads L (json_span text) with
     | Returns v => Returns v
     | Raises e => Raises (MalformedJsonError e)
     end).
Proof.
  split.
  - intros Habs. unfold find_json.
    change (py "{") with [lbrace]. change (py "}") with [rbrace].
    destruct Habs as [Habs|Habs].
    + apply find_absent_iff in Habs. rewrite Habs. reflexivity.
    + apply rfind_absent_iff in Habs. rewrite Habs, orb_true_r. reflexivity.
  - intros Hl Hr. unfold find_json.
    rewrite find_json_slice_is_span by assumption.
    change (py "{") with [lbrace]. change (py "}") with [rbrace].
    destruct (Z.eqb_spec (find text [lbrace]) (-1)) as [E|_].
    { apply find_absent_iff in E. contradiction. }
    destruct (Z.eqb_spec (rfind text [rbrace]) (-1)) as [E|_].
    { apply rfind_absent_iff in E. contradiction. }
    reflexivity.
Qed.

(** C3: [find_json] parses the span from the first [{] to the last [}]:
    it raises the no-JSON error exactly when the text has no [{] or no
    [}]; with both braces it raises the malformed-JSON error when
    [json.loads] refuses the span and returns the parsed object
    otherwise; when the first [{] precedes the last [}] the span is the
    text between them, both included. *)
Theorem find_json_spec (text : pystr) :
  (find_json L text = Raises NoJsonFoundError ↔ lbrace ∉ text ∨ rbrace ∉ text) ∧
  (lbrace ∈ text → rbrace ∈ text → ∀ e,
     json_loads L (json_span text) = Raises e →
     find_json L text = Raises (MalformedJsonError e)) ∧
  (∀ v, find_json L text = Returns v ↔
        lbrace ∈ text ∧ rbrace ∈ text ∧ json_loads L (json_span text) = Returns v) ∧
  (∀ pre mid post, text = pre ++ lbrace :: mid ++ rbrace :: post →
     lbrace ∉ pre → rbrace ∉ post → json_span text = lbrace :: mid ++ [rbrace]).
Proof.
  destruct (find_json_cases text) as [Hno Hboth].
  split; [|split; [|split]].
  - split; [|exact Hno].
    intros H.
    destruct (decide (lbrace ∈ text)) as [Hl|Hl]; [|tauto].
    destruct (decide (rbrace ∈ text)) as [Hr|Hr]; [|tauto].
    exfalso. rewrite (Hboth Hl Hr) in H.
    destruct (json_loads L (json_span text)) as [v|e]; [discriminate|].
    revert H. apply no_json_is_not_malformed.
  - intros Hl Hr e He. rewrite (Hboth Hl Hr), He. reflexivity.
  - intros v. split.
    + intros H.
      destruct (decide (lbrace ∈ text)) as [Hl|Hl].
      2:{ rewrite Hno in H by tauto. discriminate. }
      destruct (decide (rbrace ∈ text)) as [Hr|Hr].
      2:{ rewrite Hno in H by tauto. discriminate. }
      split; [assumption|]. split; [assumption|].
      rewrite (Hboth Hl Hr) in H.
      destruct (json_loads L (json_span text)); congruence.
    + intros (Hl & Hr & Hv). rewrite (Hboth Hl Hr), Hv. reflexivity.
  - intros pre mid post -> N1 N2. apply json_span_between; assumption.
Qed.

(** C10: a text with both braces whose last [}] comes before its first
    [{] does not get the no-JSON error: the slice is empty,
    [json.loads] refuses the empty string, and [find_json] raises the
    malformed-JSON error. *)
Theorem find_json_reversed_braces (text : pystr) (e : pyexc) :
  lbrace ∈ text → rbrace ∈ text →
  rfind text (py "}") < find text (py "{") →
  json_loads L [] = Raises e →
  slice text (find text (py "{")) (rfind text (py "}") + 1) = [] ∧
  find_json L text = Raises (MalformedJsonError e) ∧
  find_json L text ≠ Raises NoJsonFoundError.
Proof.
  intros Hl Hr Hlt He.
  pose proof (json_span_reversed text Hl Hr Hlt) as Hspan.
  destruct (find_json_cases text) as [_ Hboth].
  specialize (Hboth Hl Hr). rewrite Hspan, He in Hboth.
  split; [|split].
  - rewrite find_json_slice_is_span; assumption.
  - assumption.
  - rewrite Hboth. apply no_json_is_not_malformed.
Qed.

(** C7: parsing the canonical output again gives the same object: when
    [find_json text] returns [v] and the serialisation [s] of [v] is
    the text of an object (it opens with [{] and closes with [}]) that
    [json.loads] reads back as [v], then [find_json s] returns [v]. *)
Theorem find_json_canonical_roundtrip (json_dumps : pyval → pystr)
    (text : pystr) (v : pyval) (body : pystr) :
  find_json L text = Returns v →
  json_dumps v = lbrace :: body ++ [rbrace] →
  json_loads L (json_dumps v) = Returns v →
  find_json L (json_dumps v) = find_json L text.
Proof.
  intros Hv Hshape Hloads. rewrite Hv.
  destruct (find_json_cases (json_dumps v)) as [_ Hboth].
  assert (Hl : lbrace ∈ json_dumps v).
  { rewrite Hshape. apply elem_of_cons. left. reflexivity. }
  assert (Hr : rbrace ∈ json_dumps v).
  { rewrite Hshape. apply elem_of_cons. right. apply elem_of_app. right.
    apply elem_of_cons. left. reflexivity. }
  rewrite (Hboth Hl Hr).
  assert (Hspan : json_span (json_dumps v) = json_dumps v).
  { rewrite Hshape at 1.
    change (lbrace :: body ++ [rbrace]) with ([] ++ lbrace :: body ++ rbrace :: []).
    rewrite json_span_between by apply not_elem_of_nil.
    symmetry. assumption. }
  rewrite Hspan, Hloads. reflexivity.
Qed.

End FindJson.

(* ================================================================== *)
(** * dedupe_items *)

Section Dedupe.
Context (L : Library).
Variables threshold tol : float.

Lemma similarity_of_names (a b : pystr) :
  similarity L (PStr a) (PStr b) = Returns (Difflib.ratio (lower L a) (lower L b)).
Proof. reflexivity. Qed.

(** On names that are strings the inner loop returns, and what it
    returns says whether some accepted item is a duplicate. *)
Lemma scan_unique_decides (it : item) (unique : list item) :
  has_str_name it → Forall has_str_name unique →
  ∃ d, scan_unique L threshold tol it unique = Returns d ∧
       (d = true ↔ ∃ u, u ∈ unique ∧ duplicate_of L threshold tol it u).
Proof.
  intros [a Ha] Hall. induction Hall as [|u rest [b Hb] _ IH].
  - exists false. split; [reflexivity|]. split; [discriminate|].
    intros (u & Hu & _). inversion Hu.
  - cbn [scan_unique]. rewrite Ha, Hb, similarity_of_names. cbn [obind].
    destruct (PrimFloat.leb threshold _ && PrimFloat.leb _ tol) eqn:Htest.
    + exists true. split; [reflexivity|]. split; [|reflexivity]. intros _.
      exists u. split; [apply elem_of_cons; left; reflexivity|].
      apply andb_true_iff in Htest as [H1 H2].
      exists a, b. repeat split; assumption.
    + destruct IH as (d & Hd & Hiff). exists d. split; [assumption|].
      rewrite Hiff. split.
      * intros (u' & Hin & Hdup). exists u'. split; [|assumption].
        apply elem_of_cons. right. assumption.
      * intros (u' & Hin & Hdup). apply elem_of_cons in Hin as [->|Hin].
        -- exfalso. destruct Hdup as (a' & b' & Ha' & Hb' & H1 & H2).
           rewrite Ha in Ha'. rewrite Hb in Hb'.
           injection Ha' as <-. injection Hb' as <-.
           rewrite H1, H2 in Htest. discriminate.
        -- exists u'. split; assumption.
Qed.

(** The outer loop follows the greedy rule of the design. *)
Lemma dedupe_loop_greedy (items unique : list item) :
  Forall has_str_name items → Forall has_str_name unique →
  ∃ out, dedupe_loop L threshold tol items unique = Returns out ∧
         Greedy L threshold tol unique items out.
Proof.
  intros Hitems. revert unique.
  induction Hitems as [|it rest Hit _ IH]; intros unique Hunique.
  - exists unique. split; [reflexivity | constructor].
  - destruct (scan_unique_decides it unique Hit Hunique) as (d & Hd & Hiff).
    cbn [dedupe_loop]. rewrite Hd. cbn [obind]. destruct d; cbn [negb].
    + destruct (IH unique Hunique) as (out & Hout & Hg).
      exists out. split; [assumption|].
      apply Greedy_discard; [|assumption]. apply Hiff. reflexivity.
    + destruct (IH (unique ++ [it])) as (out & Hout & Hg).
      { apply Forall_app. split; [assumption|]. constructor; [assumption | constructor]. }
      exists out. split; [assumption|].
      apply Greedy_accept; [|assumption].
      intros Hex. apply Hiff in Hex. discriminate.
Qed.


Lemma dedupe_loop_settled (items unique out : list item) :
  dedupe_loop L threshold tol items unique = Returns out →
  Settled L threshold tol unique → Settled L threshold tol out.
Proof.
  revert unique. induction items as [|it rest IH]; intros unique Hrun Hs.
  - cbn in Hrun. injection Hrun as <-. assumption.
  - cbn [dedupe_loop] in Hrun.
    destruct (scan_unique L threshold tol it unique) as [[|]|e] eqn:Hscan;
      cbn [obind negb] in Hrun.
    + apply (IH unique); assumption.
    + apply (IH (unique ++ [it])); [assumption|]. constructor; assumption.
    + discriminate.
Qed.

Lemma Settled_split (out : list item) :
  Settled L threshold tol out → ∀ before it after, out = before ++ it :: after →
  scan_unique L threshold tol it before = Returns false.
Proof.
  induction 1 as [|unique x Hs IH Hscan]; intros before it after Heq.
  - destruct before; discriminate.
  - destruct after as [|y after _] using rev_ind.
    + apply app_inj_tail in Heq as [-> ->]. assumption.
    + rewrite app_comm_cons, app_assoc in Heq.
      apply app_inj_tail in Heq as [-> _].
      eapply IH. reflexivity.
Qed.

(** Running the loop over a list in which no item duplicates an
    earlier one appends the whole list. *)
Lemma dedupe_loop_keeps (items unique : list item) :
  (∀ before it after, items = before ++ it :: after →
     scan_unique L threshold tol it (unique ++ before) = Returns false) →
  dedupe_loop L threshold tol items unique = Returns (unique ++ items).
Proof.
  revert unique. induction items as [|it rest IH]; intros unique Hno.
  - cbn. rewrite app_nil_r. reflexivity.
  - cbn [dedupe_loop].
    pose proof (Hno [] it rest eq_refl) as Hscan. rewrite app_nil_r in Hscan.
    rewrite Hscan. cbn [obind negb].
    rewrite IH.
    + rewrite <- app_assoc. reflexivity.
    + intros before x after ->.
      rewrite <- app_assoc. apply (Hno (it :: before) x after). reflexivity.
Qed.

(** [dedupe_items] leaves its own output as it is. *)
Lemma dedupe_items_fixpoint (items out : list item) :
  dedupe_items L items threshold tol = Returns out →
  dedupe_items L out threshold tol = Returns out.
Proof.
  intros Hrun. unfold dedupe_items in *.
  apply dedupe_loop_settled in Hrun; [|constructor].
  rewrite dedupe_loop_keeps; [reflexivity|].
  intros before it after Heq. cbn [app].
  eapply Settled_split; eassumption.
Qed.

(** The loop never makes the list longer than what it was given. *)
Lemma dedupe_loop_length (items unique out : list item) :
  dedupe_loop L threshold tol items unique = Returns out →
  (length unique ≤ length out ≤ length unique + length items)%nat.
Proof.
  revert unique. induction items as [|it rest IH]; intros unique Hrun.
  - cbn in Hrun. injection Hrun as <-. simpl. lia.
  - cbn [dedupe_loop] in Hrun.
    destruct (scan_unique L threshold tol it unique) as [[|]|e];
      cbn [obind negb] in Hrun; [| |discriminate].
    + apply IH in Hrun. simpl. lia.
    + apply IH in Hrun. rewrite length_app in Hrun. simpl in *. lia.
Qed.

End Dedupe.

Section DedupeClaims.
Context (L : Library).


(** C6: [dedupe_items] is idempotent: [dedupe(dedupe(items))] is
    [dedupe(items)], with the default threshold and tolerance. *)
Theorem dedupe_items_idempotent (items : list item) :
  dedupe_twice L items = dedupe_items_default L items.
Proof.
  unfold dedupe_twice.
  destruct (dedupe_items_default L items) as [out|e] eqn:Hrun; cbn [obind].
  - exact (dedupe_items_fixpoint L _ _ items out Hrun).
  - reflexivity.
Qed.

End DedupeClaims.

(* ================================================================== *)
(** * pdf_or_image_to_pages *)

Section Rasterizer.
Context (L : Library).

(** The nested [try] blocks are the chain of strategies of
    [fallback_chain], tried in order. *)
Lemma pdf_or_image_to_pages_chain (b : bytes) (url : pystr) (w : world L) :
  pdf_or_image_to_pages L b url w =
  try_in_order L (fst (fallback_chain L url)) (snd (fallback_chain L url)) b w.
Proof.
  unfold pdf_or_image_to_pages, fallback_chain, pdf_like.
  destruct (endswith (lower L url) (py ".pdf")); reflexivity.
Qed.

(** A chain fails exactly when each of its strategies fails in turn. *)
Lemma try_in_order_raises (s : strategy L) (rest : list (strategy L))
    (b : bytes) (w : world L) (e : pyexc) (w' : world L) :
  try_in_order L s rest b w = (Raises e, w') ↔ Exhausted L b s rest w e w'.
Proof.
  revert s w. induction rest as [|s' rest IH]; intros s w.
  - cbn [try_in_order]. split.
    + intros H. constructor. exact H.
    + intros H. inversion H; subst. assumption.
  - cbn [try_in_order]. unfold try_except. split.
    + intros H. destruct (s b w) as [[pages|e1] w1] eqn:Hs; [discriminate|].
      econstructor; [exact Hs|]. apply IH. exact H.
    + intros H. inversion H; subst.
      match goal with Hs : s b w = _ |- _ => rewrite Hs end.
      apply IH. assumption.
Qed.

(** A chain returns the pages of the first strategy that succeeds. *)
Lemma try_in_order_returns (s : strategy L) (rest : list (strategy L))
    (b : bytes) (w : world L) (pages : list (image L)) (w' : world L) :
  try_in_order L s rest b w = (Returns pages, w') →
  ∃ s0 w0, s0 ∈ s :: rest ∧ s0 b w0 = (Returns pages, w').
Proof.
  revert s w. induction rest as [|s' rest IH]; intros s w.
  - cbn [try_in_order]. intros H. exists s, w. split; [|exact H].
    apply elem_of_cons. left. reflexivity.
  - cbn [try_in_order]. unfold try_except.
    destruct (s b w) as [[pages1|e1] w1] eqn:Hs.
    + intros [= <- <-]. exists s, w. split; [|exact Hs].
      apply elem_of_cons. left. reflexivity.
    + intros H. destruct (IH _ _ H) as (s0 & w0 & Hin & Hs0).
      exists s0, w0. split; [|exact Hs0]. apply elem_of_cons. right. exact Hin.
Qed.

(** A decoded image went through [convert("RGB")]. *)
Lemma open_as_rgb_mode (b : bytes) (w : world L) (pages : list (image L)) (w' : world L) :
  imaging_contract L →
  open_as_rgb L b w = (Returns pages, w') →
  Forall (λ p, image_mode L p = py "RGB") pages.
Proof.
  intros HC. unfold open_as_rgb, bind, ret.
  destruct (image_open L b w) as [[opened|e] w1]; [|discriminate].
  destruct (image_convert L opened (py "RGB") w1) as [[img|e] w2] eqn:Hconv;
    [|discriminate].
  intros [= <- <-]. constructor; [|constructor].
  eapply convert_gives_mode; eassumption.
Qed.

(** C4, as the code has it: the hint is lowercased and tested for the
    suffix [.pdf]; for a PDF-like hint the attempts are PDF conversion,
    PDF conversion again, then single-image decode; otherwise
    single-image decode, PDF conversion, then single-image decode
    again; each attempt runs only when the ones before it failed.  For
    a hint that is not PDF-like, and for a PDF-like hint whose first
    conversion succeeds, this is the policy of the design. *)
Theorem pdf_or_image_to_pages_policy (b : bytes) (url : pystr) (w : world L) :
  pdf_or_image_to_pages L b url w =
    (if endswith (lower L url) (py ".pdf")
     then try_in_order L (convert_from_bytes L)
            [convert_from_bytes L; open_as_rgb L] b w
     else try_in_order L (open_as_rgb L)
            [convert_from_bytes L; open_as_rgb L] b w) ∧
  (endswith (lower L url) (py ".pdf") = false →
   pdf_or_image_to_pages L b url w = rasterize_as_designed L b url w) ∧
  (∀ pages w', convert_from_bytes L b w = (Returns pages, w') →
   endswith (lower L url) (py ".pdf") = true →
   pdf_or_image_to_pages L b url w = rasterize_as_designed L b url w).
Proof.
  split; [|split].
  - rewrite pdf_or_image_to_pages_chain. unfold fallback_chain, pdf_like.
    destruct (endswith (lower L url) (py ".pdf")); reflexivity.
  - intros Hnot. unfold pdf_or_image_to_pages, rasterize_as_designed, pdf_like.
    rewrite Hnot. reflexivity.
  - intros pages w' Hconv Hpdf.
    unfold pdf_or_image_to_pages, rasterize_as_designed, pdf_like.
    rewrite Hpdf. cbn [try_in_order]. unfold try_except. rewrite Hconv. reflexivity.
Qed.

(** When every strategy of the fallback chain fails, the rasterizer
    raises what the last one raised, as it is; [extract_from_document]
    lets it through and returns nothing, leaving the world as the
    rasterizer left it (no page is sent to the model). *)
Theorem rasterizer_failure_is_fatal (b : bytes) (url : pystr)
    (w : world L) (e : pyexc) (w' : world L) :
  Exhausted L b (fst (fallback_chain L url)) (snd (fallback_chain L url)) w e w' →
  pdf_or_image_to_pages L b url w = (Raises e, w') ∧
  extract_from_document L b url w = (Raises (Uncaught e), w').
Proof.
  intros Hex. apply try_in_order_raises in Hex.
  rewrite <- pdf_or_image_to_pages_chain in Hex.
  split; [exact Hex|].
  unfold extract_from_document, bind, uncaught, try_except, raise.
  rewrite Hex. reflexivity.
Qed.

(** C9: every page the rasterizer returns is RGB, whichever path
    produced it: a decoded image was converted to RGB by the code, and a
    PDF page is rendered in RGB by the converter. *)
Theorem rasterized_pages_are_rgb (b : bytes) (url : pystr)
    (w : world L) (pages : list (image L)) (w' : world L) :
  imaging_contract L →
  pdf_or_image_to_pages L b url w = (Returns pages, w') →
  Forall (λ p, image_mode L p = py "RGB") pages.
Proof.
  intros HC Hrun. rewrite pdf_or_image_to_pages_chain in Hrun.
  apply try_in_order_returns in Hrun as (s0 & w0 & Hin & Hs0).
  assert (Hs : s0 = convert_from_bytes L ∨ s0 = open_as_rgb L).
  { unfold fallback_chain in Hin. destruct (pdf_like L url); cbn [fst snd] in Hin;
      repeat (apply elem_of_cons in Hin as [->|Hin]; [tauto|]); inversion Hin. }
  destruct Hs as [-> | ->].
  - eapply pdf_pages_are_rgb; eassumption.
  - eapply open_as_rgb_mode; eassumption.
Qed.

End Rasterizer.

(* ================================================================== *)
(** * extract_from_document *)

Section Pipeline.
Context (L : Library).

(** The display inside the [try] builds an item exactly when
    normalization, as the design words it, keeps the raw item. *)
Lemma make_item_normalize (raw : pyval) :
  match make_item L raw with
  | Returns itm => normalize_item L raw = Some itm
  | Raises _ => normalize_item L raw = None
  end.
Proof.
  unfold make_item, normalize_item, numeric_field, field, py_getitem.
  destruct raw as [| | | | |l|d]; try reflexivity.
  destruct (dict_lookup (py "item_name") d) as [name|]; [|reflexivity].
  cbn [obind].
  destruct (dict_lookup (py "amount") d) as [a|]; [|reflexivity].
  cbn [obind]. destruct (py_float L a) as [fa|ea]; [|reflexivity].
  cbn [obind].
  destruct (dict_lookup (py "rate") d) as [r|]; [|reflexivity].
  cbn [obind]. destruct (py_float L r) as [fr|er]; [|reflexivity].
  cbn [obind].
  destruct (dict_lookup (py "quantity") d) as [q|]; [|reflexivity].
  cbn [obind]. destruct (py_float L q) as [fq|eq]; reflexivity.
Qed.

(** What normalization keeps: a dict with the four fields, the three
    numbers accepted by [float]; the name is passed on as it is. *)
Lemma normalize_item_Some (raw : pyval) (itm : item) :
  normalize_item L raw = Some itm ↔
  ∃ d a r q, raw = PDict d ∧
    dict_lookup (py "item_name") d = Some (item_name itm) ∧
    dict_lookup (py "amount") d = Some a ∧ py_float L a = Returns (item_amount itm) ∧
    dict_lookup (py "rate") d = Some r ∧ py_float L r = Returns (item_rate itm) ∧
    dict_lookup (py "quantity") d = Some q ∧ py_float L q = Returns (item_quantity itm).
Proof.
  unfold normalize_item, numeric_field, field. split.
  - destruct raw as [| | | | |l|d]; try discriminate.
    destruct (dict_lookup (py "item_name") d) as [name|] eqn:Hn; [|discriminate].
    destruct (dict_lookup (py "amount") d) as [a|] eqn:Ha; [|discriminate].
    destruct (py_float L a) as [fa|ea] eqn:Hfa; [|discriminate].
    destruct (dict_lookup (py "rate") d) as [r|] eqn:Hr; [|discriminate].
    destruct (py_float L r) as [fr|er] eqn:Hfr; [|discriminate].
    destruct (dict_lookup (py "quantity") d) as [q|] eqn:Hq; [|discriminate].
    destruct (py_float L q) as [fq|eq] eqn:Hfq; [|discriminate].
    intros [= <-]. exists d, a, r, q.
    cbn [item_name item_amount item_rate item_quantity].
    repeat split; assumption.
  - intros (d & a & r & q & -> & Hn & Ha & Hfa & Hr & Hfr & Hq & Hfq).
    rewrite Hn, Ha, Hfa, Hr, Hfr, Hq, Hfq. destruct itm; reflexivity.
Qed.

Lemma omap_cons {A B} (f : A → option B) (x : A) (l : list A) :
  omap f (x :: l) = match f x with
                    | Some y => y :: omap f l
                    | None => omap f l
                    end.
Proof. reflexivity. Qed.

(** The item loop appends to both lists the items normalization keeps,
    in order, and goes on after an item it drops. *)
Lemma items_loop_normalizes (raws : list pyval) (all page : list item) :
  items_loop L raws all page =
  (all ++ omap (normalize_item L) raws, page ++ omap (normalize_item L) raws).
Proof.
  revert all page. induction raws as [|raw rest IH]; intros all page.
  - cbn. rewrite !app_nil_r. reflexivity.
  - cbn [items_loop]. rewrite omap_cons.
    pose proof (make_item_normalize raw) as Hm.
    destruct (make_item L raw) as [itm|e]; rewrite Hm.
    + rewrite IH, <- !app_assoc. reflexivity.
    + apply IH.
Qed.

(** One turn of the page loop that returns: the three counters could
    be added, so they are integers. *)
Lemma page_step_returns (n : Z) (img : image L) (st st' : loop_state) (w w' : world L) :
  page_step L n img st w = (Returns st', w') ↔
  ∃ data (t i o : Z) raws ptype,
    call_gemini_page L img w = (Returns (data, Some t, Some i, Some o), w') ∧
    raw_items_of data = Returns raws ∧
    py_get data (py "page_type") (PStr (py "Bill Detail")) = Returns ptype ∧
    st' = {| all_items := all_items st ++ omap (normalize_item L) raws;
             pagewise_output := pagewise_output st ++
               [{| page_no := n; page_type := ptype;
                   bill_items := omap (normalize_item L) raws |}];
             total_tokens := total_tokens st + t;
             input_tokens := input_tokens st + i;
             output_tokens := output_tokens st + o |}.
Proof.
  unfold page_step, raw_items_of. unfold bind at 1. split.
  - destruct (call_gemini_page L img w) as [[[[[data t] i] o]|f] w1]; [|discriminate].
    run. destruct t as [t|]; cbn [add_counter]; [|discriminate].
    destruct i as [i|]; cbn [add_counter]; [|discriminate].
    destruct o as [o|]; cbn [add_counter]; [|discriminate].
    destruct (py_get data (py "items") (PList [])) as [raw_items|e] eqn:Hget;
      [|discriminate].
    destruct (py_iter raw_items) as [raws|e] eqn:Hiter; [|discriminate].
    rewrite items_loop_normalizes. cbn [app].
    destruct (py_get data (py "page_type") _) as [ptype|e] eqn:Hpt; [|discriminate].
    intros [= <- <-]. exists data, t, i, o, raws, ptype.
    split; [reflexivity|]. split; [|split; [exact Hpt | reflexivity]].
    rewrite Hget. exact Hiter.
  - intros (data & t & i & o & raws & ptype & Hcall & Hraws & Hpt & ->).
    rewrite Hcall. run. cbn [add_counter].
    destruct (py_get data (py "items") (PList [])) as [raw_items|e] eqn:Hget;
      [|discriminate].
    cbn [obind] in Hraws. rewrite Hraws, items_loop_normalizes, Hpt. reflexivity.
Qed.

(** The page loop, when it returns: every page was extracted in turn,
    the items of every page could be iterated, and the two lists grew
    by the normalized items of each page. *)
Lemma pages_loop_returns (pages : list (image L)) (n : Z)
    (st st' : loop_state) (w w' : world L) :
  pages_loop L n pages st w = (Returns st', w') →
  ∃ datas,
    PagesExtracted L pages w datas w' ∧
    Forall (λ d, ∃ raws, raw_items_of d = Returns raws) datas ∧
    all_items st' = all_items st ++ concat (map (coerced_items L) datas) ∧
    map bill_items (pagewise_output st') =
      map bill_items (pagewise_output st) ++ map (coerced_items L) datas ∧
    map page_no (pagewise_output st') =
      map page_no (pagewise_output st) ++ seqZ n (len pages).
Proof.
  revert n st w. induction pages as [|img rest IH]; intros n st w.
  - cbn. intros [= <- <-]. exists []. cbn. rewrite !app_nil_r.
    repeat split; constructor.
  - cbn [pages_loop]. unfold bind at 1.
    destruct (page_step L n img st w) as [[st1|f] w1] eqn:Hstep; [|discriminate].
    intros Hrest. apply IH in Hrest as (datas & Hext & Hiter & Hall & Hbill & Hno).
    apply page_step_returns in Hstep
      as (data & t & i & o & raws & ptype & Hcall & Hraws & Hpt & ->).
    cbn [all_items pagewise_output] in *.
    assert (Hco : coerced_items L data = omap (normalize_item L) raws).
    { unfold coerced_items. rewrite Hraws. reflexivity. }
    exists (data :: datas). split; [|split; [|split; [|split]]].
    + econstructor; eassumption.
    + constructor; [eauto | assumption].
    + rewrite Hall. cbn [map concat]. rewrite Hco, <- app_assoc. reflexivity.
    + rewrite Hbill, map_app. cbn [map bill_items]. rewrite Hco, <- app_assoc.
      reflexivity.
    + rewrite Hno, map_app. cbn [map page_no]. rewrite <- app_assoc. f_equal.
      unfold len. cbn [length]. rewrite Nat2Z.inj_succ.
      rewrite (seqZ_cons n) by lia. cbn [app]. do 2 f_equal; lia.
Qed.

Lemma bill_items_total_concat (pagewise : list page_line_items) :
  bill_items_total pagewise = len (concat (map bill_items pagewise)).
Proof.
  induction pagewise as [|p rest IH]; [reflexivity|].
  cbn [bill_items_total foldr map concat]. fold (bill_items_total rest).
  rewrite IH, len_app. reflexivity.
Qed.

(** C8: a page whose parsed object has items that can be gone through
    is not aborted by a bad item: the page's [bill_items] are the raw
    items normalization keeps, in order; a raw item is kept iff it is a
    dict with the four fields whose amount, rate and quantity [float]
    accepts, and the kept item has those floats and the name as it
    was. *)
Theorem page_items_are_normalized (n : Z) (img : image L) (st : loop_state)
    (w w1 : world L) (data : pyval) (t i o : Z) (raws : list pyval) :
  call_gemini_page L img w = (Returns (data, Some t, Some i, Some o), w1) →
  raw_items_of data = Returns raws →
  (∃ st' ptype,
     page_step L n img st w = (Returns st', w1) ∧
     pagewise_output st' = pagewise_output st ++
       [{| page_no := n; page_type := ptype;
           bill_items := omap (normalize_item L) raws |}] ∧
     all_items st' = all_items st ++ omap (normalize_item L) raws) ∧
  (∀ raw itm, normalize_item L raw = Some itm ↔
     ∃ d a r q, raw = PDict d ∧
       dict_lookup (py "item_name") d = Some (item_name itm) ∧
       dict_lookup (py "amount") d = Some a ∧ py_float L a = Returns (item_amount itm) ∧
       dict_lookup (py "rate") d = Some r ∧ py_float L r = Returns (item_rate itm) ∧
       dict_lookup (py "quantity") d = Some q ∧
       py_float L q = Returns (item_quantity itm)) ∧
  (∀ before bad after, raws = before ++ bad :: after →
     normalize_item L bad = None →
     omap (normalize_item L) raws =
       omap (normalize_item L) before ++ omap (normalize_item L) after).
Proof.
  intros Hcall Hraws. split; [|split].
  - assert (Hdict : ∃ ptype,
              py_get data (py "page_type") (PStr (py "Bill Detail")) = Returns ptype).
    { unfold raw_items_of in Hraws. destruct data; try discriminate. cbn. eauto. }
    destruct Hdict as [ptype Hpt].
    eexists _, ptype. split; [|split].
    + apply page_step_returns. exists data, t, i, o, raws, ptype.
      repeat split; assumption.
    + reflexivity.
    + reflexivity.
  - apply normalize_item_Some.
  - intros before bad after -> Hbad.
    rewrite omap_app, omap_cons, Hbad. reflexivity.
Qed.

(** C2: when [extract_from_document] returns, the pages were rasterized
    and extracted in page order; [bill_items] of each page holds all the
    normalized items of that page; the unique items are [dedupe_items]
    run once over the concatenation of those lists, [total_item_count]
    is their number, and it is at most the sum of the lengths of the
    [bill_items]. *)
Theorem extract_from_document_counts (b : bytes) (url : pystr)
    (w w' : world L) (r : extraction) :
  extract_from_document L b url w = (Returns r, w') →
  ∃ pages w0 datas,
    pdf_or_image_to_pages L b url w = (Returns pages, w0) ∧
    PagesExtracted L pages w0 datas w' ∧
    Forall (λ d, ∃ raws, raw_items_of d = Returns raws) datas ∧
    map bill_items (ex_pagewise_output r) = map (coerced_items L) datas ∧
    map page_no (ex_pagewise_output r) = seqZ 1 (len pages) ∧
    dedupe_items_default L (concat (map bill_items (ex_pagewise_output r)))
      = Returns (ex_unique_items r) ∧
    ex_total_item_count r = len (ex_unique_items r) ∧
    ex_total_item_count r ≤ bill_items_total (ex_pagewise_output r).
Proof.
  unfold extract_from_document. unfold bind at 1. unfold uncaught, try_except.
  destruct (pdf_or_image_to_pages L b url w) as [[pages|e] w0] eqn:Hpages;
    [|discriminate].
  unfold bind at 1.
  destruct (pages_loop L 1 pages _ w0) as [[st|f] w1] eqn:Hloop; [|discriminate].
  run.
  destruct (dedupe_items_default L (all_items st)) as [unique|e] eqn:Hdedupe;
    [|discriminate].
  intros [= <- <-].
  apply pages_loop_returns in Hloop as (datas & Hext & Hiter & Hall & Hbill & Hno).
  cbn [all_items pagewise_output map app] in *.
  exists pages, w0, datas. cbn [ex_pagewise_output ex_unique_items ex_total_item_count].
  assert (Hcat : concat (map bill_items (pagewise_output st)) = all_items st).
  { rewrite Hbill, Hall. reflexivity. }
  repeat (split; [assumption || reflexivity|]).
  split; [rewrite Hcat; exact Hdedupe|]. split; [reflexivity|].
  rewrite bill_items_total_concat, Hcat.
  apply dedupe_loop_length in Hdedupe. unfold len. cbn [length] in Hdedupe. lia.
Qed.

End Pipeline.

(* ================================================================== *)
(** * dedupe_items: what it keeps, what it drops, when it raises *)

Section DedupeMore.
Context (L : Library).
Variables threshold tol : float.

(** The loop only ever appends to [unique], and what it appends is
    taken from the input in the input's order. *)
Lemma dedupe_loop_extends (items unique out : list item) :
  dedupe_loop L threshold tol items unique = Returns out →
  ∃ kept, out = unique ++ kept ∧ kept `sublist_of` items.
Proof.
  revert unique. induction items as [|it rest IH]; intros unique Hrun.
  - cbn in Hrun. injection Hrun as <-. exists []. rewrite app_nil_r.
    split; [reflexivity | constructor].
  - cbn [dedupe_loop] in Hrun.
    destruct (scan_unique L threshold tol it unique) as [[|]|e];
      cbn [obind negb] in Hrun; [| |discriminate].
    + destruct (IH _ Hrun) as (kept & -> & Hsub).
      exists kept. split; [reflexivity | apply sublist_cons, Hsub].
    + destruct (IH _ Hrun) as (kept & -> & Hsub).
      exists (it :: kept). split; [rewrite <- app_assoc; reflexivity|].
      apply sublist_skip, Hsub.
Qed.

(** Processing a list in two parts is processing it at once. *)
Lemma dedupe_loop_app (items1 items2 unique : list item) :
  dedupe_loop L threshold tol (items1 ++ items2) unique
  = obind (dedupe_loop L threshold tol items1 unique)
          (dedupe_loop L threshold tol items2).
Proof.
  revert unique. induction items1 as [|it rest IH]; intros unique.
  - reflexivity.
  - cbn [app dedupe_loop].
    destruct (scan_unique L threshold tol it unique) as [[|]|e];
      cbn [obind negb]; [apply IH | apply IH | reflexivity].
Qed.

(** The first item is accepted without a comparison. *)
Lemma dedupe_loop_first (it : item) (rest : list item) :
  dedupe_loop L threshold tol (it :: rest) []
  = dedupe_loop L threshold tol rest [it].
Proof. reflexivity. Qed.

(** A comparison that returns compared two strings. *)
Lemma scan_unique_returns_names (it u : item) (us : list item) (d : bool) :
  scan_unique L threshold tol it (u :: us) = Returns d →
  has_str_name it ∧ has_str_name u.
Proof.
  cbn [scan_unique]. unfold similarity, py_lower, has_str_name.
  destruct (item_name it); try discriminate.
  destruct (item_name u); try discriminate.
  intros _. eauto.
Qed.

(** A comparison that raises met a name that is not a string. *)
Lemma scan_unique_raises (it : item) (unique : list item) (e : pyexc) :
  scan_unique L threshold tol it unique = Raises e →
  ∃ x, (x = it ∨ x ∈ unique) ∧ ¬ has_str_name x ∧
       e = AttributeError (item_name x) (py "lower").
Proof.
  induction unique as [|u us IH]; [discriminate|].
  cbn [scan_unique]. unfold similarity, py_lower.
  destruct (item_name it) eqn:Hit;
    try (intros [= <-]; exists it; split; [left; reflexivity|]; split;
         [intros [s Hs]; congruence | rewrite Hit; reflexivity]).
  destruct (item_name u) eqn:Hu;
    try (intros [= <-]; exists u; split;
         [right; apply elem_of_cons; left; reflexivity|]; split;
         [intros [s' Hs]; congruence | rewrite Hu; reflexivity]).
  cbn [obind].
  destruct (_ && _); [discriminate|].
  intros Hrest. destruct (IH Hrest) as (x & Hx & Hns & ->).
  exists x. split; [|split; [assumption | reflexivity]].
  destruct Hx as [->|Hin]; [left; reflexivity|].
  right. apply elem_of_cons. right. exact Hin.
Qed.

(** Once something is accepted, every further item is compared with the
    first accepted item: the loop can only return if that item and all
    further items are named by strings. *)
Lemma dedupe_loop_returns_names (items : list item) (u : item) (us out : list item) :
  dedupe_loop L threshold tol items (u :: us) = Returns out →
  items = [] ∨ (has_str_name u ∧ Forall has_str_name items).
Proof.
  revert us. induction items as [|it rest IH]; intros us Hrun; [left; reflexivity|].
  right. cbn [dedupe_loop] in Hrun.
  destruct (scan_unique L threshold tol it (u :: us)) as [d|e] eqn:Hscan;
    [|discriminate].
  apply scan_unique_returns_names in Hscan as [Hit Hu].
  cbn [obind] in Hrun.
  assert (Hrest : rest = [] ∨ (has_str_name u ∧ Forall has_str_name rest)).
  { destruct d; cbn [negb] in Hrun.
    - exact (IH _ Hrun).
    - exact (IH (us ++ [it]) Hrun). }
  split; [assumption|]. constructor; [assumption|].
  destruct Hrest as [->|[_ H]]; [constructor | assumption].
Qed.

Lemma dedupe_loop_raises (items unique : list item) (e : pyexc) :
  dedupe_loop L threshold tol items unique = Raises e →
  ∃ x, (x ∈ items ∨ x ∈ unique) ∧ ¬ has_str_name x ∧
       e = AttributeError (item_name x) (py "lower").
Proof.
  revert unique. induction items as [|it rest IH]; intros unique Hrun;
    [discriminate|].
  cbn [dedupe_loop] in Hrun.
  destruct (scan_unique L threshold tol it unique) as [d|e'] eqn:Hscan.
  - cbn [obind] in Hrun.
    assert (Hx : ∃ x, (x ∈ rest ∨ x ∈ unique ++ [it]) ∧ ¬ has_str_name x ∧
                      e = AttributeError (item_name x) (py "lower")).
    { destruct d; cbn [negb] in Hrun.
      - destruct (IH _ Hrun) as (x & [Hx|Hx] & Hrest); exists x;
          (split; [|exact Hrest]); [left; exact Hx|].
        right. apply elem_of_app. left. exact Hx.
      - exact (IH _ Hrun). }
    destruct Hx as (x & Hx & Hrest). exists x. split; [|exact Hrest].
    destruct Hx as [Hx|Hx].
    + left. apply elem_of_cons. right. exact Hx.
    + apply elem_of_app in Hx as [Hx|Hx]; [right; exact Hx|].
      apply elem_of_cons in Hx as [->|Hx]; [|inversion Hx].
      left. apply elem_of_cons. left. reflexivity.
  - cbn [obind] in Hrun. injection Hrun as <-.
    destruct (scan_unique_raises _ _ _ Hscan) as (x & Hx & Hrest).
    exists x. split; [|exact Hrest].
    destruct Hx as [->|Hx]; [|right; exact Hx].
    left. apply elem_of_cons. left. reflexivity.
Qed.

(** The accepted items stay, and every input item is accepted or is a
    duplicate of an accepted one. *)
Lemma dedupe_loop_covers (items unique out : list item) :
  Forall has_str_name items → Forall has_str_name unique →
  dedupe_loop L threshold tol items unique = Returns out →
  ∀ it, it ∈ items →
    it ∈ out ∨ ∃ u, u ∈ out ∧ duplicate_of L threshold tol it u.
Proof.
  intros Hitems. revert unique.
  induction Hitems as [|x rest Hx Hrest IH]; intros unique Hunique Hrun it Hin;
    [inversion Hin|].
  cbn [dedupe_loop] in Hrun.
  destruct (scan_unique_decides L threshold tol x unique Hx Hunique)
    as (d & Hd & Hiff).
  rewrite Hd in Hrun. cbn [obind] in Hrun.
  destruct d; cbn [negb] in Hrun.
  - apply elem_of_cons in Hin as [->|Hin]; [|exact (IH _ Hunique Hrun it Hin)].
    right. destruct (proj1 Hiff eq_refl) as (u & Hu & Hdup).
    exists u. split; [|exact Hdup].
    destruct (dedupe_loop_extends _ _ _ Hrun) as (kept & -> & _).
    apply elem_of_app. left. exact Hu.
  - assert (Hunique' : Forall has_str_name (unique ++ [x])).
    { apply Forall_app. split; [assumption|]. constructor; [assumption | constructor]. }
    apply elem_of_cons in Hin as [->|Hin]; [|exact (IH _ Hunique' Hrun it Hin)].
    left. destruct (dedupe_loop_extends _ _ _ Hrun) as (kept & -> & _).
    apply elem_of_app. left. apply elem_of_app. right.
    apply elem_of_cons. left. reflexivity.
Qed.

Lemma sublist_Forall {A} (P : A → Prop) (l1 l2 : list A) :
  l1 `sublist_of` l2 → Forall P l2 → Forall P l1.
Proof.
  induction 1 as [|x l1 l2 _ IH|x l1 l2 _ IH]; intros Hall.
  - constructor.
  - apply Forall_cons in Hall as [Hx Hall]. constructor; auto.
  - apply Forall_cons in Hall as [_ Hall]. auto.
Qed.

(** X1: the output of [dedupe_items] is taken from the input without
    reordering (it is a sublist of it), so it is never longer. *)
Theorem dedupe_items_sublist (items out : list item) :
  dedupe_items L items threshold tol = Returns out →
  out `sublist_of` items ∧ (length out ≤ length items)%nat.
Proof.
  intros Hrun. unfold dedupe_items in Hrun.
  destruct (dedupe_loop_extends _ _ _ Hrun) as (kept & -> & Hsub).
  cbn [app]. split; [exact Hsub | apply sublist_length, Hsub].
Qed.

(** X2: the first item is never compared with anything and is always
    kept: a non-empty input gives an output that starts with the
    input's first item. *)
Theorem dedupe_items_keeps_first (it : item) (rest out : list item) :
  dedupe_items L (it :: rest) threshold tol = Returns out →
  ∃ kept, out = it :: kept ∧ kept `sublist_of` rest.
Proof.
  unfold dedupe_items. cbn [dedupe_loop scan_unique obind negb app].
  intros Hrun. destruct (dedupe_loop_extends _ _ _ Hrun) as (kept & -> & Hsub).
  exists kept. split; [reflexivity | exact Hsub].
Qed.

(** X3: [dedupe_items] returns exactly when the list has at most one
    item or every name is a string; when it raises, it raises the
    [AttributeError] of calling [lower] on the name of one of the
    items, which is not a string. *)
Theorem dedupe_items_returns_iff (items : list item) :
  ((∃ out, dedupe_items L items threshold tol = Returns out) ↔
   (length items ≤ 1)%nat ∨ Forall has_str_name items) ∧
  (∀ e, dedupe_items L items threshold tol = Raises e →
     ∃ x, x ∈ items ∧ ¬ has_str_name x ∧
          e = AttributeError (item_name x) (py "lower")).
Proof.
  split.
  - split.
    + intros [out Hrun]. destruct items as [|it rest]; [left; simpl; lia|].
      unfold dedupe_items in Hrun.
      cbn [dedupe_loop scan_unique obind negb app] in Hrun.
      apply dedupe_loop_returns_names in Hrun as [->|[Hit Hrest]].
      * left. simpl. lia.
      * right. constructor; assumption.
    + intros [Hlen|Hall].
      * destruct items as [|it [|it' rest]]; [| |simpl in Hlen; lia].
        -- exists []. reflexivity.
        -- exists [it]. reflexivity.
      * destruct (dedupe_loop_greedy L threshold tol items [] Hall)
          as (out & Hrun & _); [constructor|].
        exists out. exact Hrun.
  - intros e Hrun. unfold dedupe_items in Hrun.
    destruct (dedupe_loop_raises _ _ _ Hrun) as (x & [Hx|Hx] & Hrest);
      [|inversion Hx].
    exists x. split; assumption.
Qed.

Lemma dedupe_loop_output_distinct (items out : list item) :
  Forall has_str_name items →
  dedupe_loop L threshold tol items [] = Returns out →
  ∀ before it after, out = before ++ it :: after →
    ¬ ∃ u, u ∈ before ∧ duplicate_of L threshold tol it u.
Proof.
  intros Hnames Hrun before it after Heq Hdup.
  destruct (dedupe_loop_extends _ _ _ Hrun) as (kept & Hout' & Hsub).
  cbn [app] in Hout'. subst kept.
  pose proof (sublist_Forall _ _ _ Hsub Hnames) as Hout.
  rewrite Heq in Hout. apply Forall_app in Hout as [Hbefore Hrest].
  apply Forall_cons in Hrest as [Hit _].
  apply (dedupe_loop_settled L threshold tol) in Hrun; [|constructor].
  pose proof (Settled_split L threshold tol out Hrun before it after Heq) as Hscan.
  destruct (scan_unique_decides L threshold tol it before Hit Hbefore)
    as (d & Hd & Hiff).
  rewrite Hscan in Hd. injection Hd as <-.
  apply Hiff in Hdup. discriminate.
Qed.

(** X4: in the output no item is a duplicate of an item before it. *)
Theorem dedupe_items_output_distinct (items out : list item) :
  Forall has_str_name items →
  dedupe_items L items threshold tol = Returns out →
  ∀ before it after, out = before ++ it :: after →
    ¬ ∃ u, u ∈ before ∧ duplicate_of L threshold tol it u.
Proof.
  intros Hnames Hrun before it after Heq. unfold dedupe_items in Hrun.
  eapply dedupe_loop_output_distinct; eassumption.
Qed.

(** X5: nothing is lost without a reason: every input item is in the
    output or is a duplicate of an item of the output. *)
Theorem dedupe_items_covers (items out : list item) :
  Forall has_str_name items →
  dedupe_items L items threshold tol = Returns out →
  ∀ it, it ∈ items →
    it ∈ out ∨ ∃ u, u ∈ out ∧ duplicate_of L threshold tol it u.
Proof.
  intros Hnames Hrun. apply (dedupe_loop_covers items []); [assumption | constructor|].
  exact Hrun.
Qed.

(** X6: the output for a list that was extended at the end extends the
    output for the list: what was accepted is never revised, and the
    new part comes from the new items. *)
Theorem dedupe_items_prefix (items more out : list item) :
  dedupe_items L (items ++ more) threshold tol = Returns out →
  ∃ out1 kept,
    dedupe_items L items threshold tol = Returns out1 ∧
    out = out1 ++ kept ∧ kept `sublist_of` more ∧
    dedupe_loop L threshold tol more out1 = Returns out.
Proof.
  unfold dedupe_items. rewrite dedupe_loop_app.
  destruct (dedupe_loop L threshold tol items []) as [out1|e]; [|discriminate].
  cbn [obind]. intros Hrun.
  destruct (dedupe_loop_extends _ _ _ Hrun) as (kept & -> & Hsub).
  exists out1, kept. repeat split; assumption.
Qed.

(** X7: [dedupe_items] returns its input unchanged exactly when no
    item is a duplicate of an item before it. *)
Theorem dedupe_items_unchanged_iff (items : list item) :
  Forall has_str_name items →
  (dedupe_items L items threshold tol = Returns items ↔
   ∀ before it after, items = before ++ it :: after →
     ¬ ∃ u, u ∈ before ∧ duplicate_of L threshold tol it u).
Proof.
  intros Hnames. split.
  - intros Hrun. apply (dedupe_loop_output_distinct items items); assumption.
  - intros Hno. unfold dedupe_items.
    rewrite dedupe_loop_keeps; [reflexivity|].
    intros before it after Heq. cbn [app].
    assert (Hall : Forall has_str_name (before ++ it :: after))
      by (rewrite <- Heq; exact Hnames).
    apply Forall_app in Hall as [Hbefore Hrest].
    apply Forall_cons in Hrest as [Hit _].
    destruct (scan_unique_decides L threshold tol it before Hit Hbefore)
      as (d & Hd & Hiff).
    rewrite Hd. destruct d; [|reflexivity].
    exfalso. apply (Hno before it after Heq). apply Hiff. reflexivity.
Qed.

End DedupeMore.

(* ================================================================== *)
(** * The page loop and extract_from_document, case by case *)

Section PipelineMore.
Context (L : Library).

Lemma split_reply (r : pyval * Z * Z * Z) :
  r = (reply_data r, reply_total r, reply_input r, reply_output r).
Proof. destruct r as [[[data t] i] o]. reflexivity. Qed.

(** A parsed object whose items can be gone through is a dict: its
    [page_type] can be read and its items are the normalized ones. *)
Lemma iterable_page_type (data : pyval) (raws : list pyval) :
  raw_items_of data = Returns raws →
  py_get data (py "page_type") (PStr (py "Bill Detail"))
    = Returns (default (PStr (py "Bill Detail")) (field data (py "page_type"))) ∧
  coerced_items L data = omap (normalize_item L) raws.
Proof.
  intros Hraws. split.
  - unfold raw_items_of in Hraws. destruct data; try discriminate. reflexivity.
  - unfold coerced_items. rewrite Hraws. reflexivity.
Qed.

Lemma advance_nil (n : Z) (st : loop_state) : advance L n st [] = st.
Proof.
  destruct st. unfold advance, document_items, sum_of. cbn.
  rewrite !app_nil_r, !Z.add_0_r. reflexivity.
Qed.

Lemma advance_cons (n : Z) (st : loop_state) (r : pyval * Z * Z * Z)
    (replies : list (pyval * Z * Z * Z)) :
  advance L (n + 1) (advance L n st [r]) replies = advance L n st (r :: replies).
Proof.
  unfold advance, document_items, sum_of.
  cbn [all_items pagewise_output total_tokens input_tokens output_tokens
       map concat foldr].
  rewrite !app_nil_r, !Z.add_0_r, <- !app_assoc, <- !Z.add_assoc.
  f_equal. f_equal.
  assert (Hone : seqZ n (len [r]) = [n]).
  { unfold len. cbn [length]. change (Z.of_nat 1) with 1.
    rewrite seqZ_cons by lia. reflexivity. }
  assert (Hmore : seqZ n (len (r :: replies)) = n :: seqZ (n + 1) (len replies)).
  { unfold len. cbn [length]. rewrite Nat2Z.inj_succ, seqZ_cons by lia.
    f_equal. f_equal; lia. }
  rewrite Hone, Hmore. reflexivity.
Qed.

Lemma advance_one (n : Z) (st : loop_state) (r : pyval * Z * Z * Z) :
  advance L n st [r] =
  {| all_items := all_items st ++ coerced_items L (reply_data r);
     pagewise_output := pagewise_output st ++ [page_entry L n (reply_data r)];
     total_tokens := total_tokens st + reply_total r;
     input_tokens := input_tokens st + reply_input r;
     output_tokens := output_tokens st + reply_output r |}.
Proof.
  unfold advance, document_items, sum_of. cbn [map concat foldr].
  rewrite !app_nil_r, !Z.add_0_r.
  assert (Hone : seqZ n (len [r]) = [n]).
  { unfold len. cbn [length]. change (Z.of_nat 1) with 1.
    rewrite seqZ_cons by lia. reflexivity. }
  rewrite Hone. reflexivity.
Qed.

(** One turn of the page loop returns exactly when the page's call
    returns integer counters and items that can be gone through. *)
Lemma page_step_advance (n : Z) (img : image L) (st st' : loop_state) (w w' : world L) :
  page_step L n img st w = (Returns st', w') ↔
  ∃ r, call_gemini_page L img w = (Returns (returned r), w') ∧
       iterable (reply_data r) ∧ st' = advance L n st [r].
Proof.
  rewrite page_step_returns. split.
  - intros (data & t & i & o & raws & ptype & Hcall & Hraws & Hpt & ->).
    exists (data, t, i, o). split; [exact Hcall|]. split; [exists raws; exact Hraws|].
    destruct (iterable_page_type data raws Hraws) as [Hpt' Hco].
    rewrite Hpt' in Hpt. injection Hpt as <-.
    rewrite advance_one. unfold page_entry.
    cbn [reply_data reply_total reply_input reply_output fst snd].
    rewrite Hco. reflexivity.
  - intros ([[[data t] i] o] & Hcall & [raws Hraws] & ->).
    cbn [reply_data fst] in Hraws.
    destruct (iterable_page_type data raws Hraws) as [Hpt Hco].
    exists data, t, i, o, raws,
      (default (PStr (py "Bill Detail")) (field data (py "page_type"))).
    split; [exact Hcall|]. split; [exact Hraws|].
    split; [exact Hpt|].
    rewrite advance_one. unfold page_entry.
    cbn [reply_data reply_total reply_input reply_output fst snd].
    rewrite Hco. reflexivity.
Qed.

(** One turn of the page loop raises exactly when the page fails. *)
Lemma page_step_raises (n : Z) (img : image L) (st : loop_state)
    (w w' : world L) (f : failure) :
  page_step L n img st w = (Raises f, w') ↔ page_fails L img w f w'.
Proof.
  unfold page_fails, page_step, raw_items_of. unfold bind at 1. split.
  - destruct (call_gemini_page L img w) as [[[[[data t] i] o]|f0] w1] eqn:Hcall.
    + run.
      destruct t as [t|]; cbn [add_counter].
      2:{ intros [= <- <-]. right. left. exists data, None, i, o.
          split; [reflexivity|]. split; [tauto | reflexivity]. }
      destruct i as [i|]; cbn [add_counter].
      2:{ intros [= <- <-]. right. left. exists data, (Some t), None, o.
          split; [reflexivity|]. split; [tauto | reflexivity]. }
      destruct o as [o|]; cbn [add_counter].
      2:{ intros [= <- <-]. right. left. exists data, (Some t), (Some i), None.
          split; [reflexivity|]. split; [tauto | reflexivity]. }
      destruct (py_get data (py "items") (PList [])) as [raw_items|e] eqn:Hget.
      * destruct (py_iter raw_items) as [raws|e] eqn:Hiter.
        -- destruct (items_loop L raws (all_items st) []) as [all' page_items].
           assert (Hdict : ∃ d, data = PDict d)
             by (destruct data; try discriminate; eauto).
           destruct Hdict as [d ->]. cbn. discriminate.
        -- intros [= <- <-]. right. right. exists (data, t, i, o), e.
           unfold returned. cbn [reply_data reply_total reply_input reply_output fst snd].
           rewrite Hget. cbn [obind]. eauto.
      * intros [= <- <-]. right. right. exists (data, t, i, o), e.
        unfold returned. cbn [reply_data reply_total reply_input reply_output fst snd].
        rewrite Hget. cbn [obind]. eauto.
    + intros [= <- <-]. left. reflexivity.
  - intros [Hcall|[(data & t & i & o & Hcall & Hnone & ->)
                  |([[[data t] i] o] & e & Hcall & Hraws & ->)]].
    + rewrite Hcall. reflexivity.
    + rewrite Hcall. run.
      destruct t as [t|]; cbn [add_counter]; [|reflexivity].
      destruct i as [i|]; cbn [add_counter]; [|reflexivity].
      destruct o as [o|]; cbn [add_counter]; [|reflexivity].
      exfalso. destruct Hnone as [H|[H|H]]; discriminate.
    + unfold returned in Hcall.
      cbn [reply_data reply_total reply_input reply_output fst snd] in Hcall.
      rewrite Hcall. run. cbn [add_counter reply_data fst] in *.
      destruct (py_get data (py "items") (PList [])) as [raw_items|e'] eqn:Hget;
        cbn [obind] in Hraws.
      * rewrite Hraws. reflexivity.
      * injection Hraws as ->. reflexivity.
Qed.

(** The page loop returns exactly when every page's call returns with
    items that can be gone through. *)
Lemma pages_loop_advance (pages : list (image L)) (n : Z)
    (st st' : loop_state) (w w' : world L) :
  pages_loop L n pages st w = (Returns st', w') ↔
  ∃ replies, PagesCalled L pages w replies w' ∧
             Forall iterable (map reply_data replies) ∧
             st' = advance L n st replies.
Proof.
  revert n st w. induction pages as [|img rest IH]; intros n st w.
  - cbn [pages_loop]. unfold ret. split.
    + intros [= <- <-]. exists []. rewrite advance_nil.
      split; [constructor|]. split; [constructor | reflexivity].
    + intros (replies & Hcalled & _ & ->). inversion Hcalled; subst.
      rewrite advance_nil. reflexivity.
  - cbn [pages_loop]. unfold bind at 1. split.
    + destruct (page_step L n img st w) as [[st1|f] w1] eqn:Hstep; [|discriminate].
      intros Hrest. apply IH in Hrest as (replies & Hcalled & Hiter & ->).
      apply page_step_advance in Hstep as (r & Hcall & Hr & ->).
      exists (r :: replies). split; [econstructor; eassumption|].
      split; [constructor; assumption|]. apply advance_cons.
    + intros (replies & Hcalled & Hiter & ->).
      inversion Hcalled as [|? ? ? r w1 replies' ? Hcall Hrest]; subst.
      cbn [map] in Hiter. apply Forall_cons in Hiter as [Hr Hiter].
      assert (Hstep : page_step L n img st w
                = (Returns (advance L n st [r]), w1)).
      { apply page_step_advance. exists r. repeat split; assumption. }
      rewrite Hstep. apply IH. exists replies'.
      split; [assumption|]. split; [assumption|]. symmetry. apply advance_cons.
Qed.

Lemma pages_loop_app (pages1 pages2 : list (image L)) (n : Z)
    (st : loop_state) (w : world L) :
  pages_loop L n (pages1 ++ pages2) st w
  = bind (pages_loop L n pages1 st)
         (λ st1, pages_loop L (n + len pages1) pages2 st1) w.
Proof.
  revert n st w. induction pages1 as [|img rest IH]; intros n st w.
  - cbn [app pages_loop]. unfold bind, ret, len. cbn [length].
    replace (n + Z.of_nat 0) with n by lia. reflexivity.
  - cbn [app pages_loop]. unfold bind.
    destruct (page_step L n img st w) as [[st1|f] w1]; [|reflexivity].
    rewrite IH. unfold bind, len. cbn [length].
    replace (n + 1 + Z.of_nat (length rest)) with (n + Z.of_nat (S (length rest)))
      by lia.
    reflexivity.
Qed.

End PipelineMore.

(* ================================================================== *)
(** * Edge cases of the parser, the page loop and the rasterizer *)

Section EdgeCases.
Context (L : Library).

(** X8: text before the first [{] and after the last [}] does not
    matter: [find_json] gives what it gives on the span alone. *)
Theorem find_json_ignores_wrapper (pre mid post : pystr) :
  lbrace ∉ pre → rbrace ∉ post →
  find_json L (pre ++ lbrace :: mid ++ rbrace :: post)
  = find_json L (lbrace :: mid ++ [rbrace]).
Proof.
  intros Hpre Hpost.
  assert (Hin : ∀ a z, lbrace ∈ a ++ lbrace :: mid ++ rbrace :: z ∧
                       rbrace ∈ a ++ lbrace :: mid ++ rbrace :: z).
  { intros a z. split; apply elem_of_app; right.
    - apply elem_of_cons. left. reflexivity.
    - apply elem_of_cons. right. apply elem_of_app. right.
      apply elem_of_cons. left. reflexivity. }
  destruct (find_json_cases L (pre ++ lbrace :: mid ++ rbrace :: post)) as [_ H1].
  destruct (find_json_cases L ([] ++ lbrace :: mid ++ rbrace :: [])) as [_ H2].
  destruct (Hin pre post) as [Hl1 Hr1]. destruct (Hin [] []) as [Hl2 Hr2].
  specialize (H1 Hl1 Hr1). specialize (H2 Hl2 Hr2).
  rewrite json_span_between in H1 by assumption.
  rewrite json_span_between in H2 by apply not_elem_of_nil.
  cbn [app] in H2. rewrite H1, H2. reflexivity.
Qed.

(** What [find_json] raises is an [HTTPException] with status 500. *)
Lemma find_json_raises_500 (text : pystr) (f : failure) :
  find_json L text = Raises f → ∃ detail, f = HTTPException 500 detail.
Proof.
  unfold find_json. destruct (_ || _).
  - intros [= <-]. eauto.
  - destruct (json_loads L _); [discriminate|]. intros [= <-]. eauto.
Qed.

(** X9: [call_gemini_page] asks the model once whatever happens next.
    It raises exactly in three cases: the model call raised (that
    exception goes up uncaught); the reply has no text, [res.text] is
    [None] and [text.find] raises an [AttributeError] nobody catches;
    [find_json] refused the text (an [HTTPException] with status 500).
    Otherwise it returns the parsed object with the three counters as
    [getattr] found them: 0 for an attribute that is absent or when
    there is no [usage_metadata], the attribute's value otherwise, be it
    an integer or [None]. *)
Theorem call_gemini_page_outcomes (img : image L) (w : world L) :
  (∀ f w', call_gemini_page L img w = (Raises f, w') ↔
     (∃ e, generate_content L img w = (Raises e, w') ∧ f = Uncaught e) ∨
     (∃ res, generate_content L img w = (Returns res, w') ∧ text res = None ∧
             f = Uncaught (AttributeError PNone (py "find"))) ∨
     (∃ res s, generate_content L img w = (Returns res, w') ∧ text res = Some s ∧
               find_json L s = Raises f)) ∧
  (∀ f w', call_gemini_page L img w = (Raises f, w') →
     (∃ e, f = Uncaught e) ∨ (∃ detail, f = HTTPException 500 detail)) ∧
  (∀ r w', call_gemini_page L img w = (Returns r, w') ↔
     ∃ res s data, generate_content L img w = (Returns res, w') ∧
       text res = Some s ∧ find_json L s = Returns data ∧
       r = (data, counter (usage res) total_token_count,
                  counter (usage res) input_token_count,
                  counter (usage res) output_token_count)) ∧
  (∀ field, counter None field = Some 0) ∧
  (∀ m field, counter (Some m) field =
     match field m with
     | NoAttribute => Some 0
     | Attribute value => value
     end).
Proof.
  assert (Hfail : ∀ f w', call_gemini_page L img w = (Raises f, w') ↔
     (∃ e, generate_content L img w = (Raises e, w') ∧ f = Uncaught e) ∨
     (∃ res, generate_content L img w = (Returns res, w') ∧ text res = None ∧
             f = Uncaught (AttributeError PNone (py "find"))) ∨
     (∃ res s, generate_content L img w = (Returns res, w') ∧ text res = Some s ∧
               find_json L s = Raises f)).
  { intros f w'. unfold call_gemini_page, find_json_in. run. split.
    - destruct (generate_content L img w) as [[res|e] w1].
      + destruct (text res) as [s|] eqn:Htext.
        * destruct (find_json L s) as [data|f0] eqn:Hfind; [discriminate|].
          intros [= <- <-]. right. right. exists res, s.
          split; [reflexivity|]. split; [exact Htext | exact Hfind].
        * intros [= <- <-]. right. left. exists res.
          split; [reflexivity|]. split; [exact Htext | reflexivity].
      + intros [= <- <-]. left. exists e. split; reflexivity.
    - intros [(e & -> & ->)|[(res & -> & -> & ->)|(res & s & -> & -> & ->)]];
        reflexivity. }
  split; [exact Hfail|]. split; [|split; [|split]].
  - intros f w' Hcall.
    apply Hfail in Hcall as [(e & _ & ->)|[(res & _ & _ & ->)|(res & s & _ & _ & Hfind)]].
    + left. eauto.
    + left. eauto.
    + right. eapply find_json_raises_500. exact Hfind.
  - intros r w'. unfold call_gemini_page, find_json_in. run. split.
    + destruct (generate_content L img w) as [[res|e] w1]; [|discriminate].
      destruct (text res) as [s|] eqn:Htext; [|discriminate].
      destruct (find_json L s) as [data|f0] eqn:Hfind; [|discriminate].
      intros [= <- <-]. exists res, s, data. repeat split; assumption.
    + intros (res & s & data & -> & -> & -> & ->). reflexivity.
  - reflexivity.
  - reflexivity.
Qed.

(** X10: one turn of the page loop returns exactly when the call for
    the page returns, its three counters are integers and the items of
    the parsed object can be gone through, and then it has appended the
    page's entry and items and added the counters.  It raises exactly
    when the call raises, or a counter is [None] ([total_tokens += t]
    raises a [TypeError], before any item is read), or the items cannot
    be gone through; the last two exceptions go up uncaught. *)
Theorem page_step_outcomes (n : Z) (img : image L) (st : loop_state) (w : world L) :
  (∀ st' w', page_step L n img st w = (Returns st', w') ↔
     ∃ data (t i o : Z),
       call_gemini_page L img w = (Returns (data, Some t, Some i, Some o), w') ∧
       iterable data ∧
       st' = {| all_items := all_items st ++ coerced_items L data;
                pagewise_output := pagewise_output st ++ [page_entry L n data];
                total_tokens := total_tokens st + t;
                input_tokens := input_tokens st + i;
                output_tokens := output_tokens st + o |}) ∧
  (∀ f w', page_step L n img st w = (Raises f, w') ↔
     call_gemini_page L img w = (Raises f, w') ∨
     (∃ data t i o,
        call_gemini_page L img w = (Returns (data, t, i, o), w') ∧
        (t = None ∨ i = None ∨ o = None) ∧
        f = Uncaught (TypeError
              (py "unsupported operand type(s) for +=: 'int' and 'NoneType'"))) ∨
     (∃ data (t i o : Z) e,
        call_gemini_page L img w = (Returns (data, Some t, Some i, Some o), w') ∧
        raw_items_of data = Raises e ∧ f = Uncaught e)).
Proof.
  split.
  - intros st' w'. rewrite page_step_advance. split.
    + intros ([[[data t] i] o] & Hcall & Hiter & ->).
      exists data, t, i, o. split; [exact Hcall|]. split; [exact Hiter|].
      apply advance_one.
    + intros (data & t & i & o & Hcall & Hiter & ->).
      exists (data, t, i, o). split; [exact Hcall|]. split; [exact Hiter|].
      symmetry. apply advance_one.
  - intros f w'. rewrite page_step_raises. unfold page_fails. split.
    + intros [H|[H|([[[data t] i] o] & e & Hcall & Hraws & ->)]];
        [left; exact H | right; left; exact H|].
      right. right. exists data, t, i, o, e. repeat split; assumption.
    + intros [H|[H|(data & t & i & o & e & Hcall & Hraws & ->)]];
        [left; exact H | right; left; exact H|].
      right. right. exists (data, t, i, o), e. repeat split; assumption.
Qed.

(** X11: a page whose [items] is [null], a boolean or a number stops
    the loop: [for item in ...] raises [TypeError], which nothing
    catches. *)
Theorem scalar_items_abort_page (n : Z) (img : image L) (st : loop_state)
    (w w1 : world L) (r : pyval * Z * Z * Z) (d : list (pystr * pyval)) (v : pyval) :
  call_gemini_page L img w = (Returns (returned r), w1) →
  reply_data r = PDict d →
  dict_lookup (py "items") d = Some v →
  scalar v →
  page_step L n img st w
  = (Raises (Uncaught (TypeError (py "'" ++ type_name v ++ py "' object is not iterable"))),
     w1).
Proof.
  intros Hcall Hdata Hitems Hscalar. apply page_step_raises. right. right.
  exists r, (TypeError (py "'" ++ type_name v ++ py "' object is not iterable")).
  split; [exact Hcall|]. split; [|reflexivity].
  rewrite Hdata. unfold raw_items_of, py_get. rewrite Hitems. cbn [default obind].
  destruct v; try contradiction; reflexivity.
Qed.

Lemma normalize_item_not_dict (raw : pyval) :
  (∀ d, raw ≠ PDict d) → normalize_item L raw = None.
Proof.
  intros Hnot. destruct raw; try reflexivity. exfalso. eapply Hnot. reflexivity.
Qed.

Lemma omap_all_none {A B} (f : A → option B) (l : list A) :
  Forall (λ x, f x = None) l → omap f l = [].
Proof.
  induction 1 as [|x l Hx _ IH]; [reflexivity|].
  rewrite omap_cons, Hx. exact IH.
Qed.

Lemma yields_nothing_coerced (d : list (pystr * pyval)) :
  yields_nothing (default (PList []) (dict_lookup (py "items") d)) →
  iterable (PDict d) ∧ coerced_items L (PDict d) = [].
Proof.
  intros Hv. unfold iterable, coerced_items, raw_items_of, py_get.
  cbn [obind].
  destruct (default (PList []) (dict_lookup (py "items") d)) as [| | | |s|l|kv];
    try contradiction.
  - cbn [py_iter]. split; [eauto|].
    apply omap_all_none, List.Forall_map, Forall_forall. intros c _. reflexivity.
  - destruct l; [|contradiction]. cbn [py_iter]. split; [eauto | reflexivity].
  - cbn [py_iter]. split; [eauto|].
    apply omap_all_none, List.Forall_map, Forall_forall. intros c _. reflexivity.
Qed.

(** X12: a page whose parsed object has no [items] key, or has an
    empty list, a string or a dict there, does not fail: it gets an
    entry with no bill items (its [page_type] defaulting to "Bill
    Detail"), the items collected so far stay as they are and the
    counters are added. *)
Theorem page_without_items (n : Z) (img : image L) (st : loop_state)
    (w w1 : world L) (r : pyval * Z * Z * Z) (d : list (pystr * pyval)) :
  call_gemini_page L img w = (Returns (returned r), w1) →
  reply_data r = PDict d →
  yields_nothing (default (PList []) (dict_lookup (py "items") d)) →
  page_step L n img st w
  = (Returns {| all_items := all_items st;
                pagewise_output := pagewise_output st ++
                  [{| page_no := n;
                      page_type := default (PStr (py "Bill Detail"))
                                     (dict_lookup (py "page_type") d);
                      bill_items := [] |}];
                total_tokens := total_tokens st + reply_total r;
                input_tokens := input_tokens st + reply_input r;
                output_tokens := output_tokens st + reply_output r |},
     w1).
Proof.
  intros Hcall Hdata Hv.
  destruct (yields_nothing_coerced d Hv) as [Hiter Hco].
  apply page_step_advance. exists r. split; [exact Hcall|].
  rewrite Hdata. split; [exact Hiter|].
  rewrite advance_one, Hdata. unfold page_entry. rewrite Hco, app_nil_r.
  reflexivity.
Qed.

(** The whole function, when it returns. *)
Lemma extract_from_document_returns (b : bytes) (url : pystr)
    (w w' : world L) (r : extraction) :
  extract_from_document L b url w = (Returns r, w') ↔
  ∃ pages w0 replies unique,
    pdf_or_image_to_pages L b url w = (Returns pages, w0) ∧
    PagesCalled L pages w0 replies w' ∧
    Forall iterable (map reply_data replies) ∧
    dedupe_items_default L (document_items L replies) = Returns unique ∧
    r = extraction_of L replies unique.
Proof.
  unfold extract_from_document. unfold bind at 1. unfold uncaught, try_except.
  split.
  - destruct (pdf_or_image_to_pages L b url w) as [[pages|e] w0]; [|discriminate].
    unfold bind at 1.
    destruct (pages_loop L 1 pages _ w0) as [[st|f] w1] eqn:Hloop; [|discriminate].
    apply (pages_loop_advance L pages 1 initial_state) in Hloop
      as (replies & Hcalled & Hiter & ->).
    run. cbn [advance all_items initial_state app].
    destruct (dedupe_items_default L (document_items L replies)) as [unique|e]
      eqn:Hdedupe; [|discriminate].
    intros [= <- <-]. exists pages, w0, replies, unique.
    repeat (split; [assumption || reflexivity|]).
    unfold extraction_of. cbn [advance initial_state pagewise_output total_tokens
      input_tokens output_tokens app]. rewrite !Z.add_0_l. reflexivity.
  - intros (pages & w0 & replies & unique & -> & Hcalled & Hiter & Hdedupe & ->).
    unfold bind at 1.
    assert (Hloop : pages_loop L 1 pages initial_state w0
              = (Returns (advance L 1 initial_state replies), w'))
      by (apply pages_loop_advance; eauto).
    unfold initial_state in Hloop at 1. rewrite Hloop. run.
    cbn [advance all_items initial_state app]. rewrite Hdedupe.
    unfold extraction_of. cbn [advance initial_state pagewise_output total_tokens
      input_tokens output_tokens app]. rewrite !Z.add_0_l. reflexivity.
Qed.

(** X13: [extract_from_document] returns exactly when the rasterizer
    returns pages, the call for every page returns with items that can
    be gone through, and [dedupe_items] returns on all the items; the
    result then has one entry per page, numbered from 1, with the
    page's [page_type] (or "Bill Detail") and items, and each token
    total is the sum of that counter over the pages. *)
Theorem extract_from_document_returns_iff (b : bytes) (url : pystr)
    (w w' : world L) (r : extraction) :
  extract_from_document L b url w = (Returns r, w') ↔
  ∃ pages w0 replies unique,
    pdf_or_image_to_pages L b url w = (Returns pages, w0) ∧
    PagesCalled L pages w0 replies w' ∧
    Forall iterable (map reply_data replies) ∧
    dedupe_items_default L (document_items L replies) = Returns unique ∧
    r = {| ex_pagewise_output :=
             zip_with (page_entry L) (seqZ 1 (len replies)) (map reply_data replies);
           ex_unique_items := unique;
           ex_total_item_count := len unique;
           ex_total_tokens := sum_of reply_total replies;
           ex_input_tokens := sum_of reply_input replies;
           ex_output_tokens := sum_of reply_output replies |}.
Proof.
  rewrite extract_from_document_returns. unfold extraction_of. reflexivity.
Qed.

(** X14: a page that fails stops everything: when the pages before it
    were extracted and the page raises, [extract_from_document] raises
    the same failure and returns nothing of the earlier pages; the
    pages after it are not sent to the model (the world is the one the
    failing page left). *)
Theorem failing_page_aborts_document (b : bytes) (url : pystr)
    (w w0 w1 w2 : world L) (before after : list (image L)) (img : image L)
    (replies : list (pyval * Z * Z * Z)) (f : failure) :
  pdf_or_image_to_pages L b url w = (Returns (before ++ img :: after), w0) →
  PagesCalled L before w0 replies w1 →
  Forall iterable (map reply_data replies) →
  page_fails L img w1 f w2 →
  extract_from_document L b url w = (Raises f, w2).
Proof.
  intros Hpages Hcalled Hiter Hfail.
  unfold extract_from_document. unfold bind at 1. unfold uncaught, try_except.
  rewrite Hpages. unfold bind at 1.
  rewrite pages_loop_app. unfold bind at 1.
  assert (Hloop : pages_loop L 1 before initial_state w0
            = (Returns (advance L 1 initial_state replies), w1))
    by (apply pages_loop_advance; eauto).
  unfold initial_state in Hloop at 1. rewrite Hloop.
  cbn [pages_loop]. unfold bind at 1.
  assert (Hstep : page_step L (1 + len before) img
                    (advance L 1 initial_state replies) w1 = (Raises f, w2))
    by (apply page_step_raises; exact Hfail).
  rewrite Hstep. reflexivity.
Qed.

(** X15: one name that is not a string fails the whole document as
    soon as there are two items: when every page was extracted,
    [dedupe_items] raises the [AttributeError] of [lower] on such a
    name and [extract_from_document] lets it through. *)
Theorem non_string_name_fails_document (b : bytes) (url : pystr)
    (w w0 w' : world L) (pages : list (image L))
    (replies : list (pyval * Z * Z * Z)) :
  pdf_or_image_to_pages L b url w = (Returns pages, w0) →
  PagesCalled L pages w0 replies w' →
  Forall iterable (map reply_data replies) →
  (2 ≤ length (document_items L replies))%nat →
  ¬ Forall has_str_name (document_items L replies) →
  ∃ x, x ∈ document_items L replies ∧ ¬ has_str_name x ∧
       extract_from_document L b url w
       = (Raises (Uncaught (AttributeError (item_name x) (py "lower"))), w').
Proof.
  intros Hpages Hcalled Hiter Hlen Hnames.
  destruct (dedupe_items_default L (document_items L replies)) as [out|e] eqn:Hrun.
  - exfalso. unfold dedupe_items_default, dedupe_items in Hrun.
    destruct (document_items L replies) as [|it [|it' rest]];
      [simpl in Hlen; lia | simpl in Hlen; lia|].
    rewrite dedupe_loop_first in Hrun.
    apply dedupe_loop_returns_names in Hrun as [Hnil|[Hit Hrest]];
      [discriminate|].
    apply Hnames. constructor; assumption.
  - unfold dedupe_items_default, dedupe_items in Hrun.
    destruct (dedupe_loop_raises _ _ _ _ _ _ Hrun) as (x & [Hx|Hx] & Hns & ->);
      [|inversion Hx].
    exists x. split; [exact Hx|]. split; [exact Hns|].
    unfold extract_from_document. unfold bind at 1. unfold uncaught, try_except.
    rewrite Hpages. unfold bind at 1.
    assert (Hloop : pages_loop L 1 pages initial_state w0
              = (Returns (advance L 1 initial_state replies), w'))
      by (apply pages_loop_advance; eauto).
    unfold initial_state in Hloop at 1. rewrite Hloop. run.
    cbn [advance all_items initial_state app].
    unfold dedupe_items_default, dedupe_items. rewrite Hrun. reflexivity.
Qed.

(** The [bill_items] of the entries, put end to end, are the items of
    the document. *)
Lemma entries_hold_document_items (n : Z) (replies : list (pyval * Z * Z * Z)) :
  concat (map bill_items
            (zip_with (page_entry L) (seqZ n (len replies)) (map reply_data replies)))
  = document_items L replies.
Proof.
  unfold document_items, len. revert n.
  induction replies as [|x rest IH]; intros n; [reflexivity|].
  cbn [length map]. rewrite Nat2Z.inj_succ, seqZ_cons by lia.
  cbn [zip_with map concat bill_items page_entry]. f_equal.
  replace (Z.pred (Z.succ (Z.of_nat (length rest)))) with (Z.of_nat (length rest))
    by lia.
  apply IH.
Qed.

(** X16: the unique items are items of the pages, in page order: they
    form a sublist of the [bill_items] of all the entries put end to
    end, and [total_item_count] is their number. *)
Theorem unique_items_come_from_pages (b : bytes) (url : pystr)
    (w w' : world L) (r : extraction) :
  extract_from_document L b url w = (Returns r, w') →
  ex_unique_items r `sublist_of` concat (map bill_items (ex_pagewise_output r)) ∧
  ex_total_item_count r = len (ex_unique_items r) ∧
  (∀ it, it ∈ ex_unique_items r →
     ∃ p, p ∈ ex_pagewise_output r ∧ it ∈ bill_items p).
Proof.
  intros Hrun.
  apply extract_from_document_returns
    in Hrun as (pages & w0 & replies & unique & _ & _ & _ & Hdedupe & ->).
  cbn [extraction_of ex_unique_items ex_total_item_count ex_pagewise_output].
  pose proof (entries_hold_document_items 1 replies) as Hcat.
  unfold dedupe_items_default, dedupe_items in Hdedupe.
  destruct (dedupe_loop_extends _ _ _ _ _ _ Hdedupe) as (kept & Hout & Hsub).
  cbn [app] in Hout. subst kept.
  split; [rewrite Hcat; exact Hsub|]. split; [reflexivity|].
  intros it Hit.
  assert (Hin : it ∈ concat (map bill_items
                   (zip_with (page_entry L) (seqZ 1 (len replies))
                             (map reply_data replies)))).
  { rewrite Hcat. eapply elem_of_sublist; eassumption. }
  apply list_elem_of_In, in_concat in Hin as (l & Hl & Hit').
  apply in_map_iff in Hl as (p & <- & Hp).
  exists p. split; apply list_elem_of_In; assumption.
Qed.

(** X17: when the rasterizer raises, what it raises was raised by the
    last decoding of the bytes as an image ([Image.open] or
    [convert]): an exception of the PDF converter never reaches the
    caller. *)
Theorem rasterizer_raises_image_error (b : bytes) (url : pystr)
    (w w' : world L) (e : pyexc) :
  pdf_or_image_to_pages L b url w = (Raises e, w') →
  ∃ w0, open_as_rgb L b w0 = (Raises e, w') ∧
        (image_open L b w0 = (Raises e, w') ∨
         ∃ opened w1, image_open L b w0 = (Returns opened, w1) ∧
                      image_convert L opened (py "RGB") w1 = (Raises e, w')).
Proof.
  intros Hrun.
  assert (Hopen : ∃ w0, open_as_rgb L b w0 = (Raises e, w')).
  { unfold pdf_or_image_to_pages, try_except in Hrun.
    destruct (endswith (lower L url) (py ".pdf")).
    - destruct (convert_from_bytes L b w) as [[pages|e1] w1]; [discriminate|].
      destruct (convert_from_bytes L b w1) as [[pages|e2] w2]; [discriminate|].
      exists w2. exact Hrun.
    - destruct (open_as_rgb L b w) as [[pages|e1] w1]; [discriminate|].
      destruct (convert_from_bytes L b w1) as [[pages|e2] w2]; [discriminate|].
      exists w2. exact Hrun. }
  destruct Hopen as [w0 Hopen]. exists w0. split; [exact Hopen|].
  unfold open_as_rgb, bind, ret in Hopen.
  destruct (image_open L b w0) as [[opened|e1] w1].
  - right. exists opened, w1. split; [reflexivity|].
    destruct (image_convert L opened (py "RGB") w1) as [[img|e2] w2];
      [discriminate|].
    injection Hopen as <- <-. reflexivity.
  - left. injection Hopen as <- <-. reflexivity.
Qed.

(** X18: the pages the rasterizer returns are either the pages the PDF
    converter returned, as they are, or one single image that went
    through [convert("RGB")]. *)
Theorem rasterizer_pages_provenance (b : bytes) (url : pystr)
    (w w' : world L) (pages : list (image L)) :
  pdf_or_image_to_pages L b url w = (Returns pages, w') →
  (∃ w0, convert_from_bytes L b w0 = (Returns pages, w')) ∨
  (∃ w0 opened w1 img,
     image_open L b w0 = (Returns opened, w1) ∧
     image_convert L opened (py "RGB") w1 = (Returns img, w') ∧
     pages = [img]).
Proof.
  intros Hrun.
  assert (Hfrom : (∃ w0, convert_from_bytes L b w0 = (Returns pages, w')) ∨
                  (∃ w0, open_as_rgb L b w0 = (Returns pages, w'))).
  { unfold pdf_or_image_to_pages, try_except in Hrun.
    destruct (endswith (lower L url) (py ".pdf")).
    - destruct (convert_from_bytes L b w) as [[pages1|e1] w1] eqn:H1.
      { injection Hrun as <- <-. left. eauto. }
      destruct (convert_from_bytes L b w1) as [[pages2|e2] w2] eqn:H2.
      { injection Hrun as <- <-. left. eauto. }
      right. eauto.
    - destruct (open_as_rgb L b w) as [[pages1|e1] w1] eqn:H1.
      { injection Hrun as <- <-. right. eauto. }
      destruct (convert_from_bytes L b w1) as [[pages2|e2] w2] eqn:H2.
      { injection Hrun as <- <-. left. eauto. }
      right. eauto. }
  destruct Hfrom as [Hpdf|[w0 Hopen]]; [left; exact Hpdf|]. right.
  unfold open_as_rgb, bind, ret in Hopen.
  destruct (image_open L b w0) as [[opened|e1] w1] eqn:Hop; [|discriminate].
  destruct (image_convert L opened (py "RGB") w1) as [[img|e2] w2] eqn:Hconv;
    [|discriminate].
  injection Hopen as <- <-. exists w0, opened, w1, img.
  split; [exact Hop|]. split; [exact Hconv | reflexivity].
Qed.

End EdgeCases.

(* ================================================================== *)
(** * The examples of the design, run on the scripted library *)

Section Examples.
Import Sample.

Example sample_json_text :
  json_dumps page2 =
  py "{" ++ quoted (py "items") ++ py ": [{" ++ quoted (py "item_name") ++ py ": "
  ++ quoted (py "syringe") ++ py ", " ++ quoted (py "quantity") ++ py ": 2, "
  ++ quoted (py "rate") ++ py ": 2.5, " ++ quoted (py "amount") ++ py ": 5.5}]}".
Proof. vm_compute. reflexivity. Qed.

(** [float] of an [int] rounds ties to even and overflows from
    [2**1024 - 2**970] on. *)
Example float_of_int_rounds :
  float_of_int (2 ^ 53 + 1) = float_of_int (2 ^ 53) ∧
  float_of_int (2 ^ 53 + 3) = float_of_int (2 ^ 53 + 4) ∧
  float_of_int (- 7) = Some (-7)%float ∧
  float_of_int (2 ^ 1024 - 2 ^ 970 - 1) = Some 0x1.fffffffffffffp+1023%float ∧
  float_of_int (2 ^ 1024 - 2 ^ 970) = None.
Proof. repeat split; vm_compute; reflexivity. Qed.

Example ratio_paracetamol :
  Difflib.matches (py "paracetamol 500mg") (py "paracetamol 500 mg") = 17 ∧
  Difflib.ratio (py "paracetamol 500mg") (py "paracetamol 500 mg")
    = PrimFloat.div 34 35.
Proof. split; vm_compute; reflexivity. Qed.

(** The ratio depends on the order of its arguments. *)
Example ratio_is_not_symmetric :
  Difflib.ratio (py "tide") (py "diet") = 0.25%float ∧
  Difflib.ratio (py "diet") (py "tide") = 0.5%float.
Proof. split; vm_compute; reflexivity. Qed.

Example dedupe_paracetamols :
  dedupe_items_default lab paracetamols
  = Returns [bill_item (py "Paracetamol 500mg") 1 10 10].
Proof. vm_compute. reflexivity. Qed.

Example dedupe_syringes :
  dedupe_items_default lab syringes = Returns syringes.
Proof. vm_compute. reflexivity. Qed.

(** A name that is not a string stops [dedupe_items] as soon as it is
    compared. *)
Example dedupe_name_not_a_string :
  dedupe_items_default lab
    [bill_item (py "Syringe") 1 5 5;
     {| item_name := PInt 7; item_amount := 5; item_rate := 5; item_quantity := 1 |}]
  = Raises (AttributeError (PInt 7) (py "lower")).
Proof. vm_compute. reflexivity. Qed.

(** The hint is compared without regard to case. *)
Example pdf_like_hints :
  pdf_like lab (py "https://example.org/Scan.PDF") = true ∧
  pdf_like lab (py "https://example.org/scan.pdf.png") = false.
Proof. split; vm_compute; reflexivity. Qed.

Example find_json_in_chatter :
  find_json lab (py "Here it is: " ++ json_dumps page2 ++ py " Anything else?")
  = Returns page2.
Proof. vm_compute. reflexivity. Qed.

Example find_json_no_data :
  find_json lab (py "no data here") = Raises NoJsonFoundError.
Proof. vm_compute. reflexivity. Qed.

Example two_page_bill :
  extract_from_document lab png (py "https://example.org/bill.PDF") two_page_world
  = (Returns two_page_result,
     {| Lab.log := [Lab.CallPdf; Lab.CallModel; Lab.CallModel];
        Lab.pdf_script := []; Lab.model_script := [] |}).
Proof. vm_compute. reflexivity. Qed.

(** A reply without text: [text.find] raises on [None]. *)
Example reply_without_text_raises :
  call_gemini_page lab (Sample2.picture_of_page 1) (start [] [Sample2.reply_without_text])
  = (Raises (Uncaught (AttributeError PNone (py "find"))), Sample2.after_one_call).
Proof. vm_compute. reflexivity. Qed.

(** A counter that holds [None] is returned as it is, and adding it to
    the total raises. *)
Example unknown_total_is_returned :
  call_gemini_page lab (Sample2.picture_of_page 1)
    (start [] [Sample2.reply_with_unknown_total page2])
  = (Returns (page2, None, Some 0, Some 0), Sample2.after_one_call).
Proof. vm_compute. reflexivity. Qed.

Example unknown_total_fails_the_document :
  extract_from_document lab png (py "https://example.org/scan.png")
    (start [] [Sample2.reply_with_unknown_total page2])
  = (Raises (Uncaught counter_is_none),
     Sample2.logged_world [Lab.CallOpen; Lab.CallConvert; Lab.CallModel] []).
Proof. vm_compute. reflexivity. Qed.

End Examples.

(* ================================================================== *)
(** * The theorems at the examples *)

Section Instances.
Import Sample.



Lemma find_json_reversed_braces_example :
  lbrace ∈ reversed_text ∧ rbrace ∈ reversed_text ∧
  rfind reversed_text (py "}") < find reversed_text (py "{") ∧
  json_loads lab [] = Raises Lab.JSONDecodeError ∧
  slice reversed_text (find reversed_text (py "{")) (rfind reversed_text (py "}") + 1) = [] ∧
  find_json lab reversed_text = Raises (MalformedJsonError Lab.JSONDecodeError) ∧
  find_json lab reversed_text ≠ Raises NoJsonFoundError.
Proof.
  assert (Hl : lbrace ∈ reversed_text)
    by (apply (bool_decide_unpack _); vm_compute; exact I).
  assert (Hr : rbrace ∈ reversed_text)
    by (apply (bool_decide_unpack _); vm_compute; exact I).
  assert (Hlt : rfind reversed_text (py "}") < find reversed_text (py "{"))
    by (vm_compute; reflexivity).
  assert (He : json_loads lab [] = Raises Lab.JSONDecodeError) by reflexivity.
  split; [exact Hl|]. split; [exact Hr|]. split; [exact Hlt|]. split; [exact He|].
  exact (find_json_reversed_braces lab reversed_text Lab.JSONDecodeError Hl Hr Hlt He).
Defined.

Lemma find_json_canonical_roundtrip_page2 :
  find_json lab chatter = Returns page2 ∧
  json_dumps page2 = lbrace :: page2_body ++ [rbrace] ∧
  json_loads lab (json_dumps page2) = Returns page2 ∧
  find_json lab (json_dumps page2) = find_json lab chatter.
Proof.
  assert (H1 : find_json lab chatter = Returns page2) by (vm_compute; reflexivity).
  assert (H2 : json_dumps page2 = lbrace :: page2_body ++ [rbrace])
    by (vm_compute; reflexivity).
  assert (H3 : json_loads lab (json_dumps page2) = Returns page2)
    by (vm_compute; reflexivity).
  split; [exact H1|]. split; [exact H2|]. split; [exact H3|].
  exact (find_json_canonical_roundtrip lab json_dumps chatter page2 page2_body H1 H2 H3).
Defined.

Example code_on_flaky_pdf :
  pdf_or_image_to_pages lab png pdf_hint flaky_pdf
  = (Returns (Lab.rendered 2),
     {| Lab.log := [Lab.CallPdf; Lab.CallPdf]; Lab.pdf_script := [];
        Lab.model_script := [] |}).
Proof. vm_compute. reflexivity. Qed.

Example design_on_flaky_pdf :
  rasterize_as_designed lab png pdf_hint flaky_pdf
  = (Returns [{| Lab.mode := py "RGB"; Lab.page := 0 |}],
     {| Lab.log := [Lab.CallPdf; Lab.CallOpen; Lab.CallConvert];
        Lab.pdf_script := [Returns 2]; Lab.model_script := [] |}).
Proof. vm_compute. reflexivity. Qed.

Example code_on_never_pdf :
  Lab.log (snd (pdf_or_image_to_pages lab png pdf_hint never_pdf))
  = [Lab.CallPdf; Lab.CallPdf; Lab.CallOpen; Lab.CallConvert].
Proof. vm_compute. reflexivity. Qed.

Example design_on_never_pdf :
  Lab.log (snd (rasterize_as_designed lab png pdf_hint never_pdf))
  = [Lab.CallPdf; Lab.CallOpen; Lab.CallConvert].
Proof. vm_compute. reflexivity. Qed.

(** The policy of the design is not what the code does for a PDF-like
    hint: after a failed conversion the code converts again before it
    decodes an image.  With a converter that fails once, the code
    returns the PDF pages where the design returns the decoded image;
    with one that always fails, the code has called it twice. *)
Lemma pdf_hint_is_not_as_designed :
  pdf_or_image_to_pages lab png pdf_hint flaky_pdf
    ≠ rasterize_as_designed lab png pdf_hint flaky_pdf ∧
  pdf_or_image_to_pages lab png pdf_hint never_pdf
    ≠ rasterize_as_designed lab png pdf_hint never_pdf.
Proof. split; vm_compute; discriminate. Qed.

Lemma not_an_image_exhausts :
  Exhausted lab not_an_image
    (fst (fallback_chain lab png_hint)) (snd (fallback_chain lab png_hint))
    (start [] [reply page1 120]) Lab.UnidentifiedImageError exhausted_world.
Proof.
  apply (Exhausted_next lab not_an_image _ _ _ _ Lab.UnidentifiedImageError
           {| Lab.log := [Lab.CallOpen]; Lab.pdf_script := [];
              Lab.model_script := [reply page1 120] |}); [reflexivity|].
  apply (Exhausted_next lab not_an_image _ _ _ _ Lab.PDFSyntaxError
           {| Lab.log := [Lab.CallOpen; Lab.CallPdf]; Lab.pdf_script := [];
              Lab.model_script := [reply page1 120] |}); [reflexivity|].
  apply Exhausted_last. reflexivity.
Defined.

Lemma rasterizer_failure_is_fatal_example :
  Exhausted lab not_an_image
    (fst (fallback_chain lab png_hint)) (snd (fallback_chain lab png_hint))
    (start [] [reply page1 120]) Lab.UnidentifiedImageError exhausted_world ∧
  pdf_or_image_to_pages lab not_an_image png_hint (start [] [reply page1 120])
    = (Raises Lab.UnidentifiedImageError, exhausted_world) ∧
  extract_from_document lab not_an_image png_hint (start [] [reply page1 120])
    = (Raises (Uncaught Lab.UnidentifiedImageError), exhausted_world).
Proof.
  split.
  - exact not_an_image_exhausts.
  - exact (rasterizer_failure_is_fatal lab not_an_image png_hint _ _ _
             not_an_image_exhausts).
Defined.

Lemma lab_imaging_contract : imaging_contract lab.
Proof.
  split.
  - intros img m w img' w' H. injection H as <- _. reflexivity.
  - intros b w pages w'. cbn. unfold Lab.convert_from_bytes.
    destruct (Lab.pdf_script (Lab.logged Lab.CallPdf w)) as [|[n|e] rest];
      [discriminate| |discriminate].
    intros H. injection H as <- _. unfold Lab.rendered.
    apply List.Forall_map, Forall_forall. intros i _. reflexivity.
Defined.

Lemma rasterized_pages_are_rgb_example :
  imaging_contract lab ∧
  pdf_or_image_to_pages lab png png_hint never_pdf
    = (Returns [{| Lab.mode := py "RGB"; Lab.page := 0 |}],
       {| Lab.log := [Lab.CallOpen; Lab.CallConvert]; Lab.pdf_script := [];
          Lab.model_script := [] |}) ∧
  Forall (λ p, image_mode lab p = py "RGB")
         [{| Lab.mode := py "RGB"; Lab.page := 0 |}].
Proof.
  assert (Hrun : pdf_or_image_to_pages lab png png_hint never_pdf
            = (Returns [{| Lab.mode := py "RGB"; Lab.page := 0 |}],
               {| Lab.log := [Lab.CallOpen; Lab.CallConvert]; Lab.pdf_script := [];
                  Lab.model_script := [] |})) by (vm_compute; reflexivity).
  split; [exact lab_imaging_contract|]. split; [exact Hrun|].
  exact (rasterized_pages_are_rgb lab png png_hint _ _ _ lab_imaging_contract Hrun).
Defined.

Example bad_items_kept :
  omap (normalize_item lab) bad_items_raws
  = [bill_item (py "Syringe") 1 5 5; bill_item (py "Bandage") 1 2.5 2].
Proof. vm_compute. reflexivity. Qed.

Lemma page_items_are_normalized_example :
  call_gemini_page lab first_page bad_items_world
    = (Returns (page_with_bad_items, Some 50, Some 0, Some 0),
       {| Lab.log := [Lab.CallModel]; Lab.pdf_script := []; Lab.model_script := [] |}) ∧
  raw_items_of page_with_bad_items = Returns bad_items_raws ∧
  ∃ st' ptype,
    page_step lab 1 first_page no_pages bad_items_world
      = (Returns st',
         {| Lab.log := [Lab.CallModel]; Lab.pdf_script := []; Lab.model_script := [] |}) ∧
    pagewise_output st' = pagewise_output no_pages ++
      [{| page_no := 1; page_type := ptype;
          bill_items := omap (normalize_item lab) bad_items_raws |}] ∧
    all_items st' = all_items no_pages ++ omap (normalize_item lab) bad_items_raws.
Proof.
  assert (Hcall : call_gemini_page lab first_page bad_items_world
            = (Returns (page_with_bad_items, Some 50, Some 0, Some 0),
               {| Lab.log := [Lab.CallModel]; Lab.pdf_script := [];
                  Lab.model_script := [] |})) by (vm_compute; reflexivity).
  assert (Hraws : raw_items_of page_with_bad_items = Returns bad_items_raws)
    by (vm_compute; reflexivity).
  split; [exact Hcall|]. split; [exact Hraws|].
  exact (proj1 (page_items_are_normalized lab 1 first_page no_pages _ _ _ _ _ _ _
                  Hcall Hraws)).
Defined.

Lemma extract_from_document_counts_example :
  extract_from_document lab png pdf_hint two_page_world
    = (Returns two_page_result,
       {| Lab.log := [Lab.CallPdf; Lab.CallModel; Lab.CallModel];
          Lab.pdf_script := []; Lab.model_script := [] |}) ∧
  ex_total_item_count two_page_result = len (ex_unique_items two_page_result) ∧
  ex_total_item_count two_page_result
    ≤ bill_items_total (ex_pagewise_output two_page_result).
Proof.
  assert (Hrun : extract_from_document lab png pdf_hint two_page_world
            = (Returns two_page_result,
               {| Lab.log := [Lab.CallPdf; Lab.CallModel; Lab.CallModel];
                  Lab.pdf_script := []; Lab.model_script := [] |}))
    by (vm_compute; reflexivity).
  split; [exact Hrun|].
  destruct (extract_from_document_counts lab png pdf_hint _ _ _ Hrun)
    as (pages & w0 & datas & _ & _ & _ & _ & _ & _ & Hcount & Hle).
  split; [exact Hcount | exact Hle].
Defined.

End Instances.

(* ================================================================== *)
(** * How a decoding failure reaches the caller *)

Section DownloadFailure.
Context (L : Library).

(** [download_document] wraps whatever the HTTP client raised in an
    [HTTPException] with status 400 and a detail of its own. *)
Lemma download_document_raises_400 (url : pystr) (w w' : world L) (f : failure) :
  download_document L url w = (Raises f, w') →
  ∃ e, requests_get L url w = (Raises e, w') ∧
       f = HTTPException 400 (py "Failed to download document: " ++ exc_str e).
Proof.
  unfold download_document, try_except, raise.
  destruct (requests_get L url w) as [[b|e] w1]; [discriminate|].
  intros [= <- <-]. exists e. split; reflexivity.
Qed.

End DownloadFailure.

Section DecodingFailure.
Import Sample Sample2.

(** C5: bytes that are neither an image nor a PDF, under a hint that is
    not PDF-like.  Every decoder fails and the request fails as a
    whole, with no result; but what reaches the caller of
    [extract_from_document] is the exception the last [Image.open]
    raised, as it is: no error of the module's own stands for the
    decoding failure, where [find_json] raises an [HTTPException] with
    status and detail for its failures (and [download_document] one
    with status 400).  A failure of the model call reaches the caller
    in the same bare form. *)
Theorem decoding_failure_is_not_typed :
  pdf_or_image_to_pages lab not_an_image png_hint (start [] [reply page1 120])
    = (Raises Lab.UnidentifiedImageError, exhausted_world) ∧
  extract_from_document lab not_an_image png_hint (start [] [reply page1 120])
    = (Raises (Uncaught Lab.UnidentifiedImageError), exhausted_world) ∧
  extract_from_document lab png png_hint (start [] [Raises Lab.ServerError])
    = (Raises (Uncaught Lab.ServerError),
       logged_world [Lab.CallOpen; Lab.CallConvert; Lab.CallModel] []) ∧
  extract_from_document lab png png_hint (start [] [refusal])
    = (Raises (HTTPException 500 (py "Gemini output contains no JSON")),
       logged_world [Lab.CallOpen; Lab.CallConvert; Lab.CallModel] []).
Proof.
  split; [|split; [|split]]; vm_compute; reflexivity.
Qed.

End DecodingFailure.

(* ================================================================== *)
(** * The further theorems at the examples *)

Section MoreInstances.
Import Sample Sample2.

Lemma syringes_have_str_names : Forall has_str_name syringes.
Proof. repeat constructor; eexists; reflexivity. Defined.

Lemma dedupe_paracetamols_run :
  dedupe_items lab paracetamols default_threshold default_tol
  = Returns [paracetamol_a].
Proof. vm_compute. reflexivity. Defined.

Lemma dedupe_syringes_run :
  dedupe_items lab syringes default_threshold default_tol = Returns syringes.
Proof. vm_compute. reflexivity. Defined.

Lemma dedupe_items_sublist_example :
  dedupe_items lab paracetamols default_threshold default_tol
    = Returns [paracetamol_a] ∧
  [paracetamol_a] `sublist_of` paracetamols ∧
  (length [paracetamol_a] ≤ length paracetamols)%nat.
Proof.
  split; [exact dedupe_paracetamols_run|].
  exact (dedupe_items_sublist lab _ _ paracetamols [paracetamol_a]
           dedupe_paracetamols_run).
Defined.

Lemma dedupe_items_keeps_first_example :
  dedupe_items lab (paracetamol_a :: [paracetamol_b]) default_threshold default_tol
    = Returns [paracetamol_a] ∧
  ∃ kept, [paracetamol_a] = paracetamol_a :: kept ∧ kept `sublist_of` [paracetamol_b].
Proof.
  split; [exact dedupe_paracetamols_run|].
  exact (dedupe_items_keeps_first lab _ _ paracetamol_a [paracetamol_b]
           [paracetamol_a] dedupe_paracetamols_run).
Defined.

Lemma dedupe_items_output_distinct_example :
  Forall has_str_name syringes ∧
  dedupe_items lab syringes default_threshold default_tol = Returns syringes ∧
  ∀ before it after, syringes = before ++ it :: after →
    ¬ ∃ u, u ∈ before ∧ duplicate_of lab default_threshold default_tol it u.
Proof.
  split; [exact syringes_have_str_names|]. split; [exact dedupe_syringes_run|].
  exact (dedupe_items_output_distinct lab _ _ syringes syringes
           syringes_have_str_names dedupe_syringes_run).
Defined.

Lemma dedupe_items_covers_example :
  Forall has_str_name paracetamols ∧
  dedupe_items lab paracetamols default_threshold default_tol
    = Returns [paracetamol_a] ∧
  ∀ it, it ∈ paracetamols →
    it ∈ [paracetamol_a] ∨
    ∃ u, u ∈ [paracetamol_a] ∧ duplicate_of lab default_threshold default_tol it u.
Proof.
  assert (Hnames : Forall has_str_name paracetamols)
    by (repeat constructor; eexists; reflexivity).
  split; [exact Hnames|]. split; [exact dedupe_paracetamols_run|].
  exact (dedupe_items_covers lab _ _ paracetamols [paracetamol_a]
           Hnames dedupe_paracetamols_run).
Defined.

Lemma dedupe_items_prefix_example :
  dedupe_items lab ([paracetamol_a] ++ [paracetamol_b]) default_threshold default_tol
    = Returns [paracetamol_a] ∧
  ∃ out1 kept,
    dedupe_items lab [paracetamol_a] default_threshold default_tol = Returns out1 ∧
    [paracetamol_a] = out1 ++ kept ∧ kept `sublist_of` [paracetamol_b] ∧
    dedupe_loop lab default_threshold default_tol [paracetamol_b] out1
      = Returns [paracetamol_a].
Proof.
  split; [exact dedupe_paracetamols_run|].
  exact (dedupe_items_prefix lab _ _ [paracetamol_a] [paracetamol_b]
           [paracetamol_a] dedupe_paracetamols_run).
Defined.

Lemma dedupe_items_unchanged_iff_example :
  Forall has_str_name syringes ∧
  (dedupe_items lab syringes default_threshold default_tol = Returns syringes ↔
   ∀ before it after, syringes = before ++ it :: after →
     ¬ ∃ u, u ∈ before ∧ duplicate_of lab default_threshold default_tol it u).
Proof.
  split; [exact syringes_have_str_names|].
  exact (dedupe_items_unchanged_iff lab _ _ syringes syringes_have_str_names).
Defined.

Lemma find_json_ignores_wrapper_example :
  (lbrace ∉ wrapper_before) ∧ (rbrace ∉ wrapper_after) ∧
  find_json lab (wrapper_before ++ lbrace :: page2_body ++ rbrace :: wrapper_after)
  = find_json lab (lbrace :: page2_body ++ [rbrace]).
Proof.
  assert (H1 : lbrace ∉ wrapper_before)
    by (apply (bool_decide_unpack _); vm_compute; exact I).
  assert (H2 : rbrace ∉ wrapper_after)
    by (apply (bool_decide_unpack _); vm_compute; exact I).
  split; [exact H1|]. split; [exact H2|].
  exact (find_json_ignores_wrapper lab wrapper_before page2_body wrapper_after H1 H2).
Defined.

Lemma scalar_items_abort_page_example :
  call_gemini_page lab2 (picture_of_page 1) (start [] [reply page_null_items 10])
    = (Returns (returned (page_null_items, 10, 0, 0)), after_one_call) ∧
  reply_data (page_null_items, 10, 0, 0) = PDict null_items_fields ∧
  dict_lookup (py "items") null_items_fields = Some PNone ∧
  scalar PNone ∧
  page_step lab2 1 (picture_of_page 1) initial_state (start [] [reply page_null_items 10])
  = (Raises (Uncaught (TypeError
       (py "'" ++ type_name PNone ++ py "' object is not iterable"))),
     after_one_call).
Proof.
  assert (Hcall : call_gemini_page lab2 (picture_of_page 1)
                    (start [] [reply page_null_items 10])
                  = (Returns (returned (page_null_items, 10, 0, 0)), after_one_call))
    by (vm_compute; reflexivity).
  assert (Hitems : dict_lookup (py "items") null_items_fields = Some PNone)
    by (vm_compute; reflexivity).
  split; [exact Hcall|]. split; [reflexivity|]. split; [exact Hitems|].
  split; [exact I|].
  exact (scalar_items_abort_page lab2 1 (picture_of_page 1) initial_state _ _
           (page_null_items, 10, 0, 0) null_items_fields PNone
           Hcall eq_refl Hitems I).
Defined.

Lemma page_without_items_example :
  call_gemini_page lab2 (picture_of_page 1) (start [] [reply page_no_items 10])
    = (Returns (returned (page_no_items, 10, 0, 0)), after_one_call) ∧
  yields_nothing (default (PList []) (dict_lookup (py "items") no_items_fields)) ∧
  page_step lab2 1 (picture_of_page 1) initial_state (start [] [reply page_no_items 10])
  = (Returns {| all_items := [];
                pagewise_output :=
                  [] ++ [{| page_no := 1;
                            page_type := default (PStr (py "Bill Detail"))
                                           (dict_lookup (py "page_type") no_items_fields);
                            bill_items := [] |}];
                total_tokens := 0 + 10;
                input_tokens := 0 + 0;
                output_tokens := 0 + 0 |},
     after_one_call).
Proof.
  assert (Hcall : call_gemini_page lab2 (picture_of_page 1)
                    (start [] [reply page_no_items 10])
                  = (Returns (returned (page_no_items, 10, 0, 0)), after_one_call))
    by (vm_compute; reflexivity).
  assert (Hv : yields_nothing
                 (default (PList []) (dict_lookup (py "items") no_items_fields)))
    by exact I.
  split; [exact Hcall|]. split; [exact Hv|].
  exact (page_without_items lab2 1 (picture_of_page 1) initial_state _ _
           (page_no_items, 10, 0, 0) no_items_fields Hcall eq_refl Hv).
Defined.

Lemma first_page_called :
  PagesCalled lab [picture_of_page 1]
    {| Lab.log := [Lab.CallPdf]; Lab.pdf_script := [];
       Lab.model_script := [reply page1 120; refusal] |}
    [(page1, 120, 0, 0)]
    {| Lab.log := [Lab.CallPdf; Lab.CallModel]; Lab.pdf_script := [];
       Lab.model_script := [refusal] |}.
Proof.
  eapply PagesCalled_cons; [vm_compute; reflexivity | constructor].
Defined.

Lemma page1_is_iterable : Forall iterable (map reply_data [(page1, 120, 0, 0)]).
Proof. constructor; [|constructor]. eexists. vm_compute. reflexivity. Defined.

Lemma failing_page_aborts_document_example :
  pdf_or_image_to_pages lab png pdf_hint second_page_refused
    = (Returns ([picture_of_page 1] ++ picture_of_page 2 :: []),
       {| Lab.log := [Lab.CallPdf]; Lab.pdf_script := [];
          Lab.model_script := [reply page1 120; refusal] |}) ∧
  page_fails lab (picture_of_page 2)
    {| Lab.log := [Lab.CallPdf; Lab.CallModel]; Lab.pdf_script := [];
       Lab.model_script := [refusal] |}
    NoJsonFoundError
    (logged_world [Lab.CallPdf; Lab.CallModel; Lab.CallModel] []) ∧
  extract_from_document lab png pdf_hint second_page_refused
    = (Raises NoJsonFoundError,
       logged_world [Lab.CallPdf; Lab.CallModel; Lab.CallModel] []).
Proof.
  assert (Hpages : pdf_or_image_to_pages lab png pdf_hint second_page_refused
            = (Returns ([picture_of_page 1] ++ picture_of_page 2 :: []),
               {| Lab.log := [Lab.CallPdf]; Lab.pdf_script := [];
                  Lab.model_script := [reply page1 120; refusal] |}))
    by (vm_compute; reflexivity).
  assert (Hfail : page_fails lab (picture_of_page 2)
            {| Lab.log := [Lab.CallPdf; Lab.CallModel]; Lab.pdf_script := [];
               Lab.model_script := [refusal] |}
            NoJsonFoundError
            (logged_world [Lab.CallPdf; Lab.CallModel; Lab.CallModel] []))
    by (left; vm_compute; reflexivity).
  split; [exact Hpages|]. split; [exact Hfail|].
  exact (failing_page_aborts_document lab png pdf_hint _ _ _ _
           [picture_of_page 1] [] (picture_of_page 2) [(page1, 120, 0, 0)]
           NoJsonFoundError Hpages first_page_called page1_is_iterable Hfail).
Defined.

Lemma null_name_page_called :
  PagesCalled lab2 [picture_of_page 0]
    (logged_world [Lab.CallOpen; Lab.CallConvert] [reply page_null_name 30])
    null_name_replies
    (logged_world [Lab.CallOpen; Lab.CallConvert; Lab.CallModel] []).
Proof.
  eapply PagesCalled_cons; [vm_compute; reflexivity | constructor].
Defined.

Lemma null_name_document_items :
  document_items lab2 null_name_replies = null_name_items.
Proof. vm_compute. reflexivity. Defined.

Lemma non_string_name_fails_document_example :
  pdf_or_image_to_pages lab2 png png_hint (start [] [reply page_null_name 30])
    = (Returns [picture_of_page 0],
       logged_world [Lab.CallOpen; Lab.CallConvert] [reply page_null_name 30]) ∧
  (2 ≤ length (document_items lab2 null_name_replies))%nat ∧
  ¬ Forall has_str_name (document_items lab2 null_name_replies) ∧
  ∃ x, x ∈ document_items lab2 null_name_replies ∧ ¬ has_str_name x ∧
       extract_from_document lab2 png png_hint (start [] [reply page_null_name 30])
       = (Raises (Uncaught (AttributeError (item_name x) (py "lower"))),
          logged_world [Lab.CallOpen; Lab.CallConvert; Lab.CallModel] []).
Proof.
  assert (Hpages : pdf_or_image_to_pages lab2 png png_hint
                     (start [] [reply page_null_name 30])
            = (Returns [picture_of_page 0],
               logged_world [Lab.CallOpen; Lab.CallConvert] [reply page_null_name 30]))
    by (vm_compute; reflexivity).
  assert (Hiter : Forall iterable (map reply_data null_name_replies)).
  { constructor; [|constructor]. eexists. vm_compute. reflexivity. }
  assert (Hlen : (2 ≤ length (document_items lab2 null_name_replies))%nat).
  { rewrite null_name_document_items. simpl. lia. }
  assert (Hnames : ¬ Forall has_str_name
                       (document_items lab2 null_name_replies)).
  { rewrite null_name_document_items. intros H.
    apply Forall_cons in H as [[s Hs] _]. discriminate Hs. }
  split; [exact Hpages|]. split; [exact Hlen|]. split; [exact Hnames|].
  exact (non_string_name_fails_document lab2 png png_hint _ _ _
           [picture_of_page 0] null_name_replies
           Hpages null_name_page_called Hiter Hlen Hnames).
Defined.

Lemma two_page_run :
  extract_from_document lab png pdf_hint two_page_world
  = (Returns two_page_result,
     logged_world [Lab.CallPdf; Lab.CallModel; Lab.CallModel] []).
Proof. vm_compute. reflexivity. Defined.

Lemma unique_items_come_from_pages_example :
  extract_from_document lab png pdf_hint two_page_world
    = (Returns two_page_result,
       logged_world [Lab.CallPdf; Lab.CallModel; Lab.CallModel] []) ∧
  ex_unique_items two_page_result
    `sublist_of` concat (map bill_items (ex_pagewise_output two_page_result)) ∧
  ex_total_item_count two_page_result = len (ex_unique_items two_page_result) ∧
  (∀ it, it ∈ ex_unique_items two_page_result →
     ∃ p, p ∈ ex_pagewise_output two_page_result ∧ it ∈ bill_items p).
Proof.
  split; [exact two_page_run|].
  exact (unique_items_come_from_pages lab png pdf_hint _ _ _ two_page_run).
Defined.

Lemma not_an_image_run :
  pdf_or_image_to_pages lab not_an_image png_hint never_pdf
  = (Raises Lab.UnidentifiedImageError,
     logged_world [Lab.CallOpen; Lab.CallPdf; Lab.CallOpen] []).
Proof. vm_compute. reflexivity. Defined.

Lemma rasterizer_raises_image_error_example :
  pdf_or_image_to_pages lab not_an_image png_hint never_pdf
    = (Raises Lab.UnidentifiedImageError,
       logged_world [Lab.CallOpen; Lab.CallPdf; Lab.CallOpen] []) ∧
  ∃ w0, open_as_rgb lab not_an_image w0
        = (Raises Lab.UnidentifiedImageError,
           logged_world [Lab.CallOpen; Lab.CallPdf; Lab.CallOpen] []) ∧
        (image_open lab not_an_image w0
         = (Raises Lab.UnidentifiedImageError,
            logged_world [Lab.CallOpen; Lab.CallPdf; Lab.CallOpen] []) ∨
         ∃ opened w1, image_open lab not_an_image w0 = (Returns opened, w1) ∧
                      image_convert lab opened (py "RGB") w1
                      = (Raises Lab.UnidentifiedImageError,
                         logged_world [Lab.CallOpen; Lab.CallPdf; Lab.CallOpen] [])).
Proof.
  split; [exact not_an_image_run|].
  exact (rasterizer_raises_image_error lab not_an_image png_hint _ _ _ not_an_image_run).
Defined.

Lemma png_run :
  pdf_or_image_to_pages lab png png_hint never_pdf
  = (Returns [picture_of_page 0], logged_world [Lab.CallOpen; Lab.CallConvert] []).
Proof. vm_compute. reflexivity. Defined.

Lemma rasterizer_pages_provenance_example :
  pdf_or_image_to_pages lab png png_hint never_pdf
    = (Returns [picture_of_page 0], logged_world [Lab.CallOpen; Lab.CallConvert] []) ∧
  ((∃ w0, convert_from_bytes lab png w0
          = (Returns [picture_of_page 0],
             logged_world [Lab.CallOpen; Lab.CallConvert] [])) ∨
   (∃ w0 opened w1 img,
      image_open lab png w0 = (Returns opened, w1) ∧
      image_convert lab opened (py "RGB") w1
        = (Returns img, logged_world [Lab.CallOpen; Lab.CallConvert] []) ∧
      [picture_of_page 0] = [img])).
Proof.
  split; [exact png_run|].
  exact (rasterizer_pages_provenance lab png png_hint _ _ _ png_run).
Defined.

End MoreInstances.
